(** * LoFi Remix API: the command builder and the /process handler

    A shallow embedding of [src/main.py].  The command builder
    [get_ffmpeg_command] is a pure function on strings and is embedded as
    such.  The request handler [process_audio] talks to the file system, to
    the uploaded file and to a child process; it is embedded in a small
    state-and-exception monad over a [World] (file system and log), with
    the behaviour of the collaborators supplied by an environment record. *)

From Stdlib Require Import Ascii QArith.
From stdpp Require Import base strings pretty gmap.

Local Open Scope Z_scope.

(** ** Strings *)

(** The double-quote character (code 34) that the f-strings put around
    each path and around the filter graph. *)
Definition dquote : string := String "034"%char EmptyString.

Module Str.

(** [s.split(c)] for a one-character separator. *)
Fixpoint split (c : ascii) (s : string) : list string :=
  match s with
  | EmptyString => [EmptyString]
  | String a r =>
      if Ascii.eqb a c then EmptyString :: split c r
      else match split c r with
           | h :: t => String a h :: t
           | [] => [String a EmptyString]
           end
  end.

(** [c in s]. *)
Fixpoint mem (c : ascii) (s : string) : bool :=
  match s with
  | EmptyString => false
  | String a r => Ascii.eqb a c || mem c r
  end.

(** The cut made by [s.rsplit(c, 1)]: the text before the last [c] and,
    when [c] occurs at all, the text after it. *)
Fixpoint rcut (c : ascii) (s : string) : string * option string :=
  match s with
  | EmptyString => (EmptyString, None)
  | String a r =>
      match rcut c r with
      | (h, Some t) => (String a h, Some t)
      | (h, None) =>
          if Ascii.eqb a c then (EmptyString, Some r) else (String a h, None)
      end
  end.

(** [s.rsplit(c, 1)]: a list of one or two strings. *)
Definition rsplit1 (c : ascii) (s : string) : list string :=
  match rcut c s with
  | (h, Some t) => [h; t]
  | (h, None) => [h]
  end.

End Str.

(** ** The command builder *)

(** [get_ffmpeg_command] of [src/main.py], branch by branch; the adjacent
    f-string literals of the source are joined with [+:+]. *)
Definition get_ffmpeg_command (preset input_path output_path : string) : string :=
  if String.eqb preset "lofi" || String.eqb preset "tiktok_lofi"
     || String.eqb preset "chill_lofi" then
    "ffmpeg -i " +:+ dquote +:+ input_path +:+ dquote +:+ " " +:+
    "-filter_complex " +:+ dquote +:+
    "lowpass=f=3000," +:+
    "highpass=f=200," +:+
    "equalizer=f=60:width_type=h:width=100:g=10," +:+
    "vibrato=f=0.25:d=0.3," +:+
    "asetrate=44100*0.97,aresample=44100" +:+
    dquote +:+ " " +:+
    "-c:a aac -b:a 320k " +:+ dquote +:+ output_path +:+ dquote
  else if String.eqb preset "reverb" then
    "ffmpeg -i " +:+ dquote +:+ input_path +:+ dquote +:+ " " +:+
    "-filter_complex " +:+ dquote +:+
    "atempo=0.85," +:+
    "asetrate=44100*0.95,aresample=44100," +:+
    "reverb=roomsize=0.8:wet=0.45:dry=0.55," +:+
    "equalizer=f=60:width_type=h:width=100:g=12" +:+
    dquote +:+ " " +:+
    "-c:a aac -b:a 320k " +:+ dquote +:+ output_path +:+ dquote
  else if String.eqb preset "nightcore" then
    "ffmpeg -i " +:+ dquote +:+ input_path +:+ dquote +:+ " " +:+
    "-filter_complex " +:+ dquote +:+
    "atempo=1.25," +:+
    "asetrate=44100*1.1,aresample=44100," +:+
    "highpass=f=100," +:+
    "equalizer=f=8000:width_type=h:width=2000:g=8" +:+
    dquote +:+ " " +:+
    "-c:a aac -b:a 320k " +:+ dquote +:+ output_path +:+ dquote
  else if String.eqb preset "8d_audio" then
    "ffmpeg -i " +:+ dquote +:+ input_path +:+ dquote +:+ " " +:+
    "-filter_complex " +:+ dquote +:+
    "apulsator=hz=0.35:width=0.5," +:+
    "stereotools=mlev=0.5:phase=0.25," +:+
    "extrastereo=m=2.0," +:+
    "reverb=roomsize=0.5:wet=0.3" +:+
    dquote +:+ " " +:+
    "-c:a aac -b:a 320k " +:+ dquote +:+ output_path +:+ dquote
  else if String.eqb preset "vaporwave" then
    "ffmpeg -i " +:+ dquote +:+ input_path +:+ dquote +:+ " " +:+
    "-filter_complex " +:+ dquote +:+
    "atempo=0.90," +:+
    "asetrate=44100*0.93,aresample=44100," +:+
    "reverb=roomsize=0.6:wet=0.35," +:+
    "equalizer=f=60:width_type=h:width=100:g=10" +:+
    dquote +:+ " " +:+
    "-c:a aac -b:a 320k " +:+ dquote +:+ output_path +:+ dquote
  else
    "ffmpeg -i " +:+ dquote +:+ input_path +:+ dquote +:+
    " -c:a aac -b:a 320k " +:+ dquote +:+ output_path +:+ dquote.

(** The seven identifiers the builder recognises. *)
Definition recognized : list string :=
  ["lofi"; "tiktok_lofi"; "chill_lofi"; "reverb"; "nightcore"; "8d_audio";
   "vaporwave"].

(** The command of the [else] branch. *)
Definition default_command (input_path output_path : string) : string :=
  "ffmpeg -i " +:+ dquote +:+ input_path +:+ dquote +:+
  " -c:a aac -b:a 320k " +:+ dquote +:+ output_path +:+ dquote.

(** ** Reading a filter graph

    The text between the quotes after [-filter_complex] is a comma-separated
    chain of filters, each [name=opt:opt:...], an option being [key=value]
    or a bare value.  [Graph] reads such a text back, so that what the
    builder emits can be compared with the stage table of the specification. *)
Module Graph.

Definition digit (a : ascii) : option N :=
  let n := N_of_ascii a in
  if ((48 <=? n) && (n <=? 57))%N then Some (n - 48)%N else None.

Fixpoint digits (s : string) (acc : N) : option N :=
  match s with
  | EmptyString => Some acc
  | String a r => d ← digit a; digits r (10 * acc + d)%N
  end.

Definition natural (s : string) : option N :=
  match s with
  | EmptyString => None
  | _ => digits s 0%N
  end.

(** A decimal numeral such as [44100], [0.97] or [2.0]. *)
Definition decimal (s : string) : option Q :=
  match Str.split "."%char s with
  | [w] => n ← natural w; Some (inject_Z (Z.of_N n))
  | [w; f] =>
      n ← natural w; m ← natural f;
      Some (Qplus (inject_Z (Z.of_N n))
                  (Qmake (Z.of_N m) (Pos.pow 10 (Pos.of_nat (String.length f)))))
  | _ => None
  end.

(** A product of decimal numerals, as in [44100*0.97]. *)
Definition number (s : string) : option Q :=
  foldr (fun t acc => a ← acc; d ← decimal t; Some (Qmult d a))
        (Some 1%Q) (Str.split "*"%char s).

(** The cut at the first occurrence of a character. *)
Fixpoint lcut (c : ascii) (s : string) : string * option string :=
  match s with
  | EmptyString => (EmptyString, None)
  | String a r =>
      if Ascii.eqb a c then (EmptyString, Some r)
      else let '(h, t) := lcut c r in (String a h, t)
  end.

(** A filter: its name and its options; a bare value has the empty key. *)
Record Filter := { name : string; opts : list (string * string) }.

Definition parse_opt (o : string) : string * string :=
  match lcut "="%char o with
  | (k, Some v) => (k, v)
  | (v, None) => (EmptyString, v)
  end.

Definition parse_filter (s : string) : Filter :=
  match lcut "="%char s with
  | (n, Some r) => {| name := n; opts := parse_opt <$> Str.split ":"%char r |}
  | (n, None) => {| name := n; opts := [] |}
  end.

Definition parse_chain (s : string) : list Filter :=
  parse_filter <$> Str.split ","%char s.

Fixpoint assoc (k : string) (l : list (string * string)) : option string :=
  match l with
  | [] => None
  | (k', v) :: r => if String.eqb k k' then Some v else assoc k r
  end.

(** The numeric value of option [k] of a filter ([k] empty: its bare value). *)
Definition value (k : string) (f : Filter) : option Q :=
  v ← assoc k (opts f); number v.

Definition is_value (k : string) (f : Filter) (q : Q) : bool :=
  match value k f with
  | Some v => Qeq_bool v q
  | None => false
  end.

Definition named (n : string) (f : Filter) : bool := String.eqb (name f) n.

End Graph.

(** ** The stage table of the specification *)
Module Table.
Import Graph.

(** The kinds of stage that the table of section 4.2 names, with the
    parameters the table gives for them. *)
Inductive Stage : Type :=
| Lowpass
| Highpass
| EqBoost (hz : Q)              (* EQ boost at a centre frequency *)
| Vibrato
| ResamplePitch (factor : Q)    (* pitch change via resample *)
| Tempo (factor : Q)
| Reverb (room wet : Q)
| LightReverb                   (* a reverb, parameters left open *)
| Pulsation (hz : Q)            (* low-frequency amplitude pulsation *)
| StereoAdjust                  (* stereo width/phase adjust *)
| StereoWiden (factor : Q).

(** The rows of the table, following the specification's words: the
    filter stage order of each preset identifier, and no row for any
    other value. *)
Definition spec_table_row (preset : string) : option (list Stage) :=
  if bool_decide (preset ∈ ["lofi"; "tiktok_lofi"; "chill_lofi"]) then
    Some [Lowpass; Highpass; EqBoost 60; Vibrato; ResamplePitch 0.97]
  else if bool_decide (preset = "reverb") then
    Some [Tempo 0.85; ResamplePitch 0.95; Reverb 0.8 0.45; EqBoost 60]
  else if bool_decide (preset = "nightcore") then
    Some [Tempo 1.25; ResamplePitch 1.10; Highpass; EqBoost 8000]
  else if bool_decide (preset = "8d_audio") then
    Some [Pulsation 0.35; StereoAdjust; StereoWiden 2.0; LightReverb]
  else if bool_decide (preset = "vaporwave") then
    Some [Tempo 0.90; ResamplePitch 0.93; Reverb 0.6 0.35; EqBoost 60]
  else None.

(** [realises st fs]: the filters at the head of [fs] carry out stage
    [st]; the result is what remains of [fs].  A pitch change via
    resample is the pair [asetrate=r*k], [aresample=r]; every other
    stage is one filter. *)
Definition realises (st : Stage) (fs : list Filter) : option (list Filter) :=
  match st, fs with
  | Lowpass, f :: r => if named "lowpass" f then Some r else None
  | Highpass, f :: r => if named "highpass" f then Some r else None
  | EqBoost hz, f :: r =>
      if named "equalizer" f && is_value "f" f hz
         && match value "g" f with
            | Some g => negb (Qle_bool g 0)
            | None => false
            end
      then Some r else None
  | Vibrato, f :: r => if named "vibrato" f then Some r else None
  | ResamplePitch k, f :: g :: r =>
      if named "asetrate" f && named "aresample" g
         && match value EmptyString f, value EmptyString g with
            | Some a, Some b => Qeq_bool a (Qmult b k)
            | _, _ => false
            end
      then Some r else None
  | Tempo k, f :: r =>
      if named "atempo" f && is_value EmptyString f k then Some r else None
  | Reverb room wet, f :: r =>
      if named "reverb" f && is_value "roomsize" f room && is_value "wet" f wet
      then Some r else None
  | LightReverb, f :: r => if named "reverb" f then Some r else None
  | Pulsation hz, f :: r =>
      if named "apulsator" f && is_value "hz" f hz then Some r else None
  | StereoAdjust, f :: r => if named "stereotools" f then Some r else None
  | StereoWiden k, f :: r =>
      if named "extrastereo" f && is_value "m" f k then Some r else None
  | _, _ => None
  end.

(** The filters [fs] carry out the stages of [row], in order, with
    nothing left over. *)
Fixpoint chain_matches (row : list Stage) (fs : list Filter) : bool :=
  match row with
  | [] => match fs with [] => true | _ => false end
  | st :: row' =>
      match realises st fs with
      | Some r => chain_matches row' r
      | None => false
      end
  end.

End Table.

(** The shape of an invocation that carries the filter graph [chain]. *)
Definition filtered_command (input_path chain output_path : string) : string :=
  "ffmpeg -i " +:+ dquote +:+ input_path +:+ dquote +:+
  " -filter_complex " +:+ dquote +:+ chain +:+ dquote +:+
  " -c:a aac -b:a 320k " +:+ dquote +:+ output_path +:+ dquote.

(** ** The world of a request *)

Inductive Level : Type := INFO | WARNING | ERROR.

(** What the handler can observe and change: the files on disk (path to
    content) and the log. *)
Record World : Type := mkWorld {
  fs : gmap string string;
  log : list (Level * string)
}.

Definition set_fs (f : gmap string string → gmap string string) (w : World) : World :=
  {| fs := f (fs w); log := log w |}.

(** The exceptions of the request.  [TimeoutExpired] and [Exception] are
    instances of Python's [Exception]; [CancelledError] derives from
    [BaseException] only, so [except Exception] does not catch it. *)
Inductive PyExn : Type :=
| TimeoutExpired (cmd : string) (timeout : N)
| Exception (msg : string)
| CancelledError.

Definition is_Exception (e : PyExn) : bool :=
  match e with
  | TimeoutExpired _ _ | Exception _ => true
  | CancelledError => false
  end.

(** [str(e)]. *)
Definition str (e : PyExn) : string :=
  match e with
  | TimeoutExpired cmd timeout =>
      "Command '" +:+ cmd +:+ "' timed out after " +:+ pretty timeout +:+ " seconds"
  | Exception msg => msg
  | CancelledError => EmptyString
  end.

(** ** The monad of the handler: state and exceptions *)

Inductive Outcome (A : Type) : Type :=
| Return (a : A)
| Raise (e : PyExn).
Arguments Return {A} a.
Arguments Raise {A} e.

Definition M (A : Type) : Type := World → Outcome A * World.

#[global] Instance M_ret : MRet M := λ A a w, (Return a, w).

#[global] Instance M_bind : MBind M := λ A B k m w,
  match m w with
  | (Return a, w') => k a w'
  | (Raise e, w') => (Raise e, w')
  end.

Definition raise {A} (e : PyExn) : M A := λ w, (Raise e, w).

(** [try: body  except ...: handler]; [handler e] is [None] when no
    [except] clause matches [e], which then propagates. *)
Definition try_except {A} (body : M A) (handler : PyExn → option (M A)) : M A :=
  λ w,
    match body w with
    | (Return a, w') => (Return a, w')
    | (Raise e, w') =>
        match handler e with
        | Some h => h w'
        | None => (Raise e, w')
        end
    end.

(** [try: body  finally: fin]: [fin] runs whatever [body] did; the outcome
    is that of [body] unless [fin] itself raises. *)
Definition try_finally {A} (body : M A) (fin : M unit) : M A :=
  λ w,
    let '(r, w') := body w in
    match fin w' with
    | (Return _, w'') => (r, w'')
    | (Raise e, w'') => (Raise e, w'')
    end.

Definition logger (l : Level) (msg : string) : M unit :=
  λ w, (Return (), {| fs := fs w; log := log w ++ [(l, msg)] |}).

(** [l[i]] on a Python list. *)
Definition index {A} (l : list A) (i : nat) : M A :=
  match l !! i with
  | Some x => mret x
  | None => raise (Exception "list index out of range")
  end.

(** ** The collaborators *)

(** What the external engine does with a command line on a given disk:
    after how many seconds it exits ([None]: it never does), with which
    status, which bytes it writes on its standard output and on its
    standard error, and what the disk holds when [subprocess.run] is
    over. *)
Record Behaviour : Type := mkBehaviour {
  elapsed : option Q;
  exit_status : Z;
  output : string;
  diagnostics : string;
  fs_after : gmap string string
}.

(** What a codec makes of captured bytes under strict error handling: the
    text, or the message of the [UnicodeDecodeError]. *)
Inductive Decoded : Type :=
| Text (s : string)
| Undecodable (msg : string).

(** The environment of one request: the identifier [uuid.uuid4()] draws,
    the failures of the operating system calls (the text of the [OSError],
    if any), the external engine and the codec of the locale, with which
    text mode decodes what the engine wrote.

    [output_stat_error] is the error that [output_path.exists()] re-raises,
    if any.  [unlink_error] is the error, if any, that stops the deletion
    of the input file in the cleanup step; [fault_at_exists] tells whether
    it strikes at [input_path.exists()] already, the path being one that
    [stat] cannot reach, or at [input_path.unlink()].  A path that [stat]
    cannot reach cannot be unlinked either, so there is no environment in
    which [exists()] raises and the deletion would have worked. *)
Record Env : Type := mkEnv {
  uuid4 : string;
  open_error : option string;
  write_error : option string;
  spawn_error : option string;
  engine : string → gmap string string → Behaviour;
  decode : string → Decoded;
  output_stat_error : option string;
  unlink_error : option string;
  fault_at_exists : bool
}.

(** [await file.read()] returns the payload, fails, or is cancelled. *)
Inductive ReadResult : Type :=
| ReadOk (content : string)
| ReadError (msg : string)
| ReadCancelled.

Record UploadFile : Type := mkUploadFile {
  filename : string;
  read_result : ReadResult
}.

Definition read (file : UploadFile) : M string :=
  match read_result file with
  | ReadOk content => mret content
  | ReadError msg => raise (Exception msg)
  | ReadCancelled => raise CancelledError
  end.

(** [TEMP_DIR / name]. *)
Definition TEMP_DIR : string := "/tmp/audio".
Definition path_join (dir name : string) : string := dir +:+ "/" +:+ name.

(** [open(path, "wb")]: the file is created or truncated. *)
Definition open_wb (env : Env) (path : string) : M unit :=
  match open_error env with
  | Some msg => raise (Exception msg)
  | None => λ w, (Return (), set_fs (insert path EmptyString) w)
  end.

(** [f.write(content)] on the file opened at [path]. *)
Definition write (env : Env) (path content : string) : M unit :=
  match write_error env with
  | Some msg => raise (Exception msg)
  | None => λ w, (Return (), set_fs (insert path content) w)
  end.

(** [path.exists()]: whether the path is on disk; an error of [stat]
    other than the few that mean absence, given as [fault], is
    re-raised. *)
Definition exists_ (fault : option string) (path : string) : M bool :=
  match fault with
  | Some msg => raise (Exception msg)
  | None => λ w, (Return (bool_decide (is_Some (fs w !! path))), w)
  end.

(** [path.unlink()]. *)
Definition unlink (env : Env) (path : string) : M unit :=
  match unlink_error env with
  | Some msg => raise (Exception msg)
  | None =>
      λ w, match fs w !! path with
           | Some _ => (Return (), set_fs (delete path) w)
           | None => (Raise (Exception ("[Errno 2] No such file or directory: '"
                                        +:+ path +:+ "'")), w)
           end
  end.

(** Carriage return and line feed. *)
Definition CR : ascii := "013"%char.
Definition LF : ascii := "010"%char.

(** [s.replace(CR LF, LF)]. *)
Fixpoint replace_crlf (s : string) : string :=
  match s with
  | EmptyString => EmptyString
  | String a r =>
      match r with
      | String b r' =>
          if Ascii.eqb a CR && Ascii.eqb b LF
          then String LF (replace_crlf r')
          else String a (replace_crlf r)
      | EmptyString => String a EmptyString
      end
  end.

(** [s.replace(CR, LF)]. *)
Fixpoint replace_cr (s : string) : string :=
  match s with
  | EmptyString => EmptyString
  | String a r => String (if Ascii.eqb a CR then LF else a) (replace_cr r)
  end.

(** [Popen._translate_newlines]: what text mode makes of a captured
    stream.  The bytes are decoded, strictly, and the line ends are
    normalised. *)
Definition translate_newlines (codec : string → Decoded) (data : string) : M string :=
  match codec data with
  | Text s => mret (replace_cr (replace_crlf s))
  | Undecodable msg => raise (Exception msg)
  end.

(** The result of [subprocess.run]. *)
Record CompletedProcess : Type := mkCompleted {
  returncode : Z;
  stdout : string;
  stderr : string
}.

(** [subprocess.run(cmd, shell=True, capture_output=True, text=True,
    timeout=timeout)]: [TimeoutExpired] unless the engine exits within
    [timeout] seconds; then its status with its two streams as text, the
    standard output decoded first. *)
Definition subprocess_run (env : Env) (cmd : string) (timeout : N) : M CompletedProcess :=
  match spawn_error env with
  | Some msg => raise (Exception msg)
  | None =>
      λ w,
        let b := engine env cmd (fs w) in
        let w' := set_fs (λ _, fs_after b) w in
        match elapsed b with
        | Some t =>
            if Qle_bool t (inject_Z (Z.of_N timeout))
            then (out ← translate_newlines (decode env) (output b);
                  err ← translate_newlines (decode env) (diagnostics b);
                  mret {| returncode := exit_status b;
                          stdout := out; stderr := err |}) w'
            else (Raise (TimeoutExpired cmd timeout), w')
        | None => (Raise (TimeoutExpired cmd timeout), w')
        end
  end.

(** ** The handler of POST /process *)

(** What the handler returns: a dict, serialised by the framework as a JSON
    object (the pairs in the order of the literal), or a [FileResponse]. *)
Inductive Response : Type :=
| Json (body : list (string * string))
| FileResponse (path media_type filename : string).

Definition input_path_of (file_id : string) : string :=
  path_join TEMP_DIR (file_id +:+ "_input.mp3").

Definition output_path_of (file_id : string) : string :=
  path_join TEMP_DIR (file_id +:+ "_output.m4a").

(** The [finally] block of [process_audio]. *)
Definition cleanup (env : Env) (input_path : string) : M unit :=
  try_except
    (present ← exists_ (if fault_at_exists env then unlink_error env else None)
                       input_path;
     if present : bool then unlink env input_path else mret ())
    (λ e, if is_Exception e
          then Some (logger WARNING ("⚠️ Cleanup error: " +:+ str e))
          else None).

(** The [try] block of [process_audio] with its two [except] clauses. *)
Definition attempt (env : Env) (file : UploadFile) (preset : string)
    (input_path output_path : string) : M Response :=
  try_except
    (logger INFO ("📥 Receiving file: " +:+ filename file);;
     open_wb env input_path;;
     content ← read file;
     write env input_path content;;
     logger INFO ("✅ File saved: " +:+ input_path);;
     let ffmpeg_cmd := get_ffmpeg_command preset input_path output_path in
     logger INFO ("🎛️ Processing with preset: " +:+ preset);;
     logger INFO ("⚙️ Command: " +:+ ffmpeg_cmd);;
     result ← subprocess_run env ffmpeg_cmd 300;
     if negb (returncode result =? 0) then
       logger ERROR ("❌ FFmpeg error: " +:+ stderr result);;
       mret (Json [("status", "error");
                   ("message", "Processing failed");
                   ("error", stderr result)])
     else
       logger INFO ("✅ Processing complete: " +:+ output_path);;
       present ← exists_ (output_stat_error env) output_path;
       if negb present then
         logger ERROR "❌ Output file not created";;
         mret (Json [("status", "error");
                     ("message", "Output file not created")])
       else
         stem ← index (Str.rsplit1 "."%char (filename file)) 0;
         mret (FileResponse output_path "audio/mp4"
                            (preset +:+ "_" +:+ stem +:+ ".m4a")))
    (λ e,
       match e with
       | TimeoutExpired _ _ =>
           Some (logger ERROR "❌ Processing timeout (5 minutes)";;
                 mret (Json [("status", "error");
                             ("message", "Processing timeout")]))
       | _ =>
           if is_Exception e then
             Some (logger ERROR ("❌ Error: " +:+ str e);;
                   mret (Json [("status", "error");
                               ("message", str e)]))
           else None
       end).

(** [process_audio] of [src/main.py]: the [try] block, then the [finally]
    block. *)
Definition process_audio (env : Env) (file : UploadFile) (preset : string) : M Response :=
  let file_id := uuid4 env in
  let input_path := input_path_of file_id in
  let output_path := output_path_of file_id in
  try_finally
    (attempt env file preset input_path output_path)
    (cleanup env input_path).

(** The response of a request and the world it leaves. *)
Definition response (env : Env) (file : UploadFile) (preset : string)
    (w : World) : Outcome Response :=
  (process_audio env file preset w).1.

Definition world_after (env : Env) (file : UploadFile) (preset : string)
    (w : World) : World :=
  (process_audio env file preset w).2.

(** ** Scenarios of a request

    The situations the properties speak of, stated on the collaborators. *)

(** The disk once the upload is saved at [input_path]. *)
Definition saved (input_path content : string) (d : gmap string string)
  : gmap string string :=
  <[input_path := content]> (<[input_path := EmptyString]> d).

(** The upload is saved and the child process is started: [b] is what the
    engine does with the command built for the request. *)
Definition reaches_engine (env : Env) (file : UploadFile) (preset : string)
    (w : World) (b : Behaviour) : Prop :=
  ∃ content,
    open_error env = None
    ∧ read_result file = ReadOk content
    ∧ write_error env = None
    ∧ spawn_error env = None
    ∧ b = engine env
            (get_ffmpeg_command preset (input_path_of (uuid4 env))
                                (output_path_of (uuid4 env)))
            (saved (input_path_of (uuid4 env)) content (fs w)).

(** The engine exits within the 300 seconds it is given. *)
Definition exits_in_time (b : Behaviour) : Prop :=
  ∃ t, elapsed b = Some t ∧ Qle t (inject_Z 300).

(** The 300 seconds elapse before the engine exits. *)
Definition exceeds_timeout (b : Behaviour) : Prop :=
  match elapsed b with
  | Some t => Qlt (inject_Z 300) t
  | None => True
  end.

(** The path [p] exists on disk [d]. *)
Definition on_disk (p : string) (d : gmap string string) : Prop := is_Some (d !! p).

(** Text mode reads [data] as the text [s]. *)
Definition text_of (env : Env) (data s : string) : Prop :=
  ∃ t, decode env data = Text t ∧ s = replace_cr (replace_crlf t).

(** The two streams of the engine are read as the texts [out] and [err]. *)
Definition decoded (env : Env) (b : Behaviour) (out err : string) : Prop :=
  text_of env (output b) out ∧ text_of env (diagnostics b) err.

(** One of the two streams of the engine cannot be decoded; [msg] is the
    message of the first [UnicodeDecodeError]. *)
Definition decode_fault (env : Env) (b : Behaviour) (msg : string) : Prop :=
  decode env (output b) = Undecodable msg
  ∨ ((∃ out, text_of env (output b) out)
     ∧ decode env (diagnostics b) = Undecodable msg).

(** The error body with a message only. *)
Definition error_body (message : string) : Response :=
  Json [("status", "error"); ("message", message)].

(** The same environment, with another result for the deletion of the
    input file. *)
Definition with_unlink_error (o : option string) (env : Env) : Env :=
  {| uuid4 := uuid4 env;
     open_error := open_error env;
     write_error := write_error env;
     spawn_error := spawn_error env;
     engine := engine env;
     decode := decode env;
     output_stat_error := output_stat_error env;
     unlink_error := o;
     fault_at_exists := fault_at_exists env |}.

(** An operating-system call of the request, before the engine runs,
    raises with text [msg]: opening the input file, reading the upload,
    writing the payload or starting the child process. *)
Definition faults_with (env : Env) (file : UploadFile) (msg : string) : Prop :=
  open_error env = Some msg
  ∨ (open_error env = None ∧ read_result file = ReadError msg)
  ∨ (∃ content, open_error env = None ∧ read_result file = ReadOk content
                ∧ write_error env = Some msg)
  ∨ (∃ content, open_error env = None ∧ read_result file = ReadOk content
                ∧ write_error env = None ∧ spawn_error env = Some msg).

(** [stem] is [name] cut at its last dot, as [name.rsplit(., 1)[0]] cuts
    it: [name] up to its last dot, or all of [name] when it has no dot. *)
Definition without_extension (name stem : string) : Prop :=
  if Str.mem "."%char name
  then ∃ ext, name = stem +:+ "." +:+ ext ∧ Str.mem "."%char ext = false
  else stem = name.

(** The file response of a request that succeeds. *)
Definition processed_file (env : Env) (file : UploadFile) (preset : string) : Response :=
  FileResponse (output_path_of (uuid4 env)) "audio/mp4"
    (preset +:+ "_" +:+ (Str.rcut "."%char (filename file)).1 +:+ ".m4a").

(** Whether a string is made of dots only. *)
Fixpoint all_dots (s : string) : bool :=
  match s with
  | EmptyString => true
  | String a r => Ascii.eqb a "."%char && all_dots r
  end.

(** Following the specification's words, the base name of an uploaded
    name: what follows its last slash. *)
Definition spec_basename (name : string) : string :=
  match Str.rcut "/"%char name with
  | (_, Some t) => t
  | (h, None) => h
  end.

(** Following the specification's words, the base name without its
    extension.  The extension starts at the last dot of the base name;
    dots that lead the base name start no extension. *)
Definition spec_stem (name : string) : string :=
  let base := spec_basename name in
  match Str.rcut "."%char base with
  | (h, Some _) => if all_dots h then base else h
  | (_, None) => base
  end.

(** ** Example requests *)
Module Examples.

Definition upload : UploadFile :=
  {| filename := "song.final.wav"; read_result := ReadOk "RIFF" |}.

Definition empty_world : World := {| fs := ∅; log := [] |}.

Fixpoint is_ascii (s : string) : bool :=
  match s with
  | EmptyString => true
  | String a r => (N_of_ascii a <? 128)%N && is_ascii r
  end.

(** An example codec, used on ASCII text and on data that starts with a
    stray byte 0xff only, where it agrees with UTF-8: ASCII bytes stand
    for themselves, and the stray byte is rejected with the message UTF-8
    gives for it. *)
Definition utf8 (data : string) : Decoded :=
  if is_ascii data then Text data
  else Undecodable
         "'utf-8' codec can't decode byte 0xff in position 0: invalid start byte".

(** An engine that writes the output in twelve seconds. *)
Definition engine_ok : string → gmap string string → Behaviour :=
  λ _ d, {| elapsed := Some (inject_Z 12); exit_status := 0;
            output := EmptyString; diagnostics := EmptyString;
            fs_after := <[output_path_of "u1" := "AAC"]> d |}.

(** An engine that rejects its input. *)
Definition engine_rejects : string → gmap string string → Behaviour :=
  λ _ d, {| elapsed := Some (inject_Z 1); exit_status := 1;
            output := EmptyString;
            diagnostics := "Invalid data found when processing input";
            fs_after := d |}.

(** An engine that reports success and writes nothing. *)
Definition engine_silent : string → gmap string string → Behaviour :=
  λ _ d, {| elapsed := Some (inject_Z 1); exit_status := 0;
            output := EmptyString; diagnostics := EmptyString;
            fs_after := d |}.

(** An engine that never exits. *)
Definition engine_hangs : string → gmap string string → Behaviour :=
  λ _ d, {| elapsed := None; exit_status := 0;
            output := EmptyString; diagnostics := EmptyString;
            fs_after := d |}.

(** An engine that writes the output, exits with status zero, and leaves
    the one byte 0xff on its standard error. *)
Definition engine_garbled : string → gmap string string → Behaviour :=
  λ _ d, {| elapsed := Some (inject_Z 12); exit_status := 0;
            output := EmptyString;
            diagnostics := String "255"%char EmptyString;
            fs_after := <[output_path_of "u1" := "AAC"]> d |}.

Definition env_with (eng : string → gmap string string → Behaviour) : Env :=
  {| uuid4 := "u1"; open_error := None; write_error := None;
     spawn_error := None; engine := eng; decode := utf8;
     output_stat_error := None; unlink_error := None;
     fault_at_exists := false |}.

(** The input file cannot be opened. *)
Definition env_open_fails (msg : string) : Env :=
  {| uuid4 := "u1"; open_error := Some msg; write_error := None;
     spawn_error := None; engine := engine_ok; decode := utf8;
     output_stat_error := None; unlink_error := None;
     fault_at_exists := false |}.

(** The input file cannot be deleted. *)
Definition env_unlink_fails : Env :=
  with_unlink_error (Some "[Errno 13] Permission denied") (env_with engine_ok).

(** The temporary directory cannot be searched: nothing can be opened in
    it, and [exists()] raises on its paths. *)
Definition env_unsearchable : Env :=
  {| uuid4 := "u1";
     open_error := Some "[Errno 13] Permission denied: '/tmp/audio/u1_input.mp3'";
     write_error := None; spawn_error := None; engine := engine_ok;
     decode := utf8;
     output_stat_error := Some "[Errno 13] Permission denied: '/tmp/audio/u1_output.m4a'";
     unlink_error := Some "[Errno 13] Permission denied: '/tmp/audio/u1_input.mp3'";
     fault_at_exists := true |}.

(** An upload whose name has a directory part. *)
Definition upload_in_dir : UploadFile :=
  {| filename := "my.dir/track"; read_result := ReadOk "RIFF" |}.

End Examples.

(** ** The preset listing *)

(** [d.get(k)] on a dict written as the list of its items. *)
Fixpoint dict_get {V : Type} (k : string) (d : list (string * V)) : option V :=
  match d with
  | [] => None
  | (k', v) :: r => if String.eqb k k' then Some v else dict_get k r
  end.

(** [get_presets] of [src/main.py]: a dict whose one entry, [presets],
    is a list of dicts. *)
Definition get_presets : list (string * list (list (string * string))) :=
  [("presets",
    [ [("id", "lofi");
       ("name", "Ultimate Lo-fi");
       ("description", "TikTok viral breathing + deep bass")];
      [("id", "reverb");
       ("name", "Slowed + Reverb");
       ("description", "Actually slows down with reverb")];
      [("id", "nightcore");
       ("name", "Nightcore");
       ("description", "Fast + energetic + high pitch")];
      [("id", "8d_audio");
       ("name", "8D Audio");
       ("description", "360° immersive surround sound")];
      [("id", "vaporwave");
       ("name", "Vaporwave");
       ("description", "A E S T H E T I C vibes")] ])].

(** The identifiers a client reads off the listing. *)
Definition listed_ids : list string :=
  omap (dict_get "id") (default [] (dict_get "presets" get_presets)).

(** ** Further vocabulary for the properties *)

(** The shape every invocation has: the input path, a middle part, the
    codec options and the output path. *)
Definition command_frame (input_path middle output_path : string) : string :=
  "ffmpeg -i " +:+ dquote +:+ input_path +:+ dquote +:+ middle +:+
  "-c:a aac -b:a 320k " +:+ dquote +:+ output_path +:+ dquote.

(** The three identifiers of the first branch of the builder. *)
Definition lofi_aliases : list string := ["lofi"; "tiktok_lofi"; "chill_lofi"].

(** The same environment with another engine. *)
Definition with_engine (eng : string → gmap string string → Behaviour)
    (env : Env) : Env :=
  {| uuid4 := uuid4 env;
     open_error := open_error env;
     write_error := write_error env;
     spawn_error := spawn_error env;
     engine := eng;
     decode := decode env;
     output_stat_error := output_stat_error env;
     unlink_error := unlink_error env;
     fault_at_exists := fault_at_exists env |}.

#[global] Instance Level_eq_dec : EqDecision Level.
Proof. solve_decision. Defined.

(** The number of entries of level [l] in a log. *)
Definition logged (l : Level) (entries : list (Level * string)) : nat :=
  length (filter (λ e, e.1 = l) entries).

(** One when the response is a JSON body, zero otherwise. *)
Definition is_error_body (r : Outcome Response) : nat :=
  match r with
  | Return (Json _) => 1
  | _ => 0
  end.

(** A world in which another request has left its output. *)
Definition busy_world : World :=
  {| fs := {["/tmp/audio/other_output.m4a" := "AAC"]}; log := [] |}.

(** * Properties *)

(** ** Sanity checks of the definitions *)

Example cmd_default :
  get_ffmpeg_command "LOFI" "a.mp3" "b.m4a"
  = "ffmpeg -i " +:+ dquote +:+ "a.mp3" +:+ dquote +:+ " -c:a aac -b:a 320k "
    +:+ dquote +:+ "b.m4a" +:+ dquote.
Proof. reflexivity. Qed.

Example rsplit_two : Str.rsplit1 "."%char "a.tar.gz" = ["a.tar"; "gz"].
Proof. reflexivity. Qed.

Example rsplit_none : Str.rsplit1 "."%char "track" = ["track"].
Proof. reflexivity. Qed.

Example split_three : Str.split ","%char "a,b,,c" = ["a"; "b"; EmptyString; "c"].
Proof. reflexivity. Qed.

Example decimal_097 : Graph.decimal "0.97" = Some (Qplus (inject_Z 0) (Qmake 97 100)).
Proof. reflexivity. Qed.

Example number_rate :
  (fun q => Qeq_bool q (Qmake 42777 1)) <$> Graph.number "44100*0.97" = Some true.
Proof. reflexivity. Qed.

Example parse_eq :
  Graph.parse_filter "equalizer=f=60:width_type=h:width=100:g=10"
  = {| Graph.name := "equalizer";
       Graph.opts := [("f", "60"); ("width_type", "h"); ("width", "100"); ("g", "10")] |}.
Proof. reflexivity. Qed.

Example parse_rate :
  Graph.parse_chain "asetrate=44100*0.97,aresample=44100"
  = [ {| Graph.name := "asetrate"; Graph.opts := [(EmptyString, "44100*0.97")] |};
      {| Graph.name := "aresample"; Graph.opts := [(EmptyString, "44100")] |} ].
Proof. reflexivity. Qed.

Example lofi_row_ok :
  Table.chain_matches
    [Table.Lowpass; Table.Highpass; Table.EqBoost 60; Table.Vibrato;
     Table.ResamplePitch 0.97]
    (Graph.parse_chain
       "lowpass=f=3000,highpass=f=200,equalizer=f=60:width_type=h:width=100:g=10,vibrato=f=0.25:d=0.3,asetrate=44100*0.97,aresample=44100")
  = true.
Proof. reflexivity. Qed.

Example lofi_row_order :
  Table.chain_matches
    [Table.Highpass; Table.Lowpass]
    (Graph.parse_chain "lowpass=f=3000,highpass=f=200") = false.
Proof. reflexivity. Qed.

(** ** Strings *)

Lemma append_cancel_l (s a b : string) : s +:+ a = s +:+ b → a = b.
Proof.
  induction s as [|c s IH]; simpl; [done|].
  intros H. injection H as H. by apply IH.
Qed.

(** The cut of [rsplit] is made at the last occurrence of the separator. *)
Lemma rcut_spec (c : ascii) (s : string) :
  match Str.rcut c s with
  | (h, Some t) => s = h +:+ String c t ∧ Str.mem c t = false
  | (h, None) => h = s ∧ Str.mem c s = false
  end.
Proof.
  induction s as [|a r IH]; simpl; [done|].
  destruct (Str.rcut c r) as [h [t|]].
  - by destruct IH as [-> Ht].
  - destruct IH as [-> Hr].
    destruct (Ascii.eqb_spec a c) as [->|Hne]; simpl; [done|].
    by rewrite Hr.
Qed.

(** ** The command builder *)

Lemma default_when_unrecognized (preset i o : string) :
  preset ∉ recognized → get_ffmpeg_command preset i o = default_command i o.
Proof.
  intros H. unfold get_ffmpeg_command, recognized in *.
  repeat match goal with
  | |- context [String.eqb preset ?s] =>
      destruct (String.eqb_spec preset s) as [->|_];
      [exfalso; apply H; rewrite !elem_of_cons; tauto|]
  end.
  reflexivity.
Qed.

Lemma no_row_when_unrecognized (preset : string) :
  preset ∉ recognized → Table.spec_table_row preset = None.
Proof.
  intros H. unfold Table.spec_table_row, recognized in *.
  rewrite !bool_decide_eq_false_2;
    [done|intros Hin; apply H; revert Hin; rewrite !elem_of_cons; tauto..].
Qed.

Lemma default_has_no_filter_graph (i o chain : string) :
  default_command i o ≠ filtered_command i chain o.
Proof.
  unfold default_command, filtered_command. intros H.
  do 4 apply append_cancel_l in H. discriminate H.
Qed.

(** The chain and the table row of a recognised preset: the builder's
    invocation carries the chain, and the chain carries out the row. *)
Lemma recognized_chain (preset i o chain : string) (row : list Table.Stage) :
  get_ffmpeg_command preset i o = filtered_command i chain o →
  Table.spec_table_row preset = Some row →
  Table.chain_matches row (Graph.parse_chain chain) = true →
  chain ≠ EmptyString → row ≠ [] →
  ∃ chain row,
    get_ffmpeg_command preset i o = filtered_command i chain o
    ∧ chain ≠ EmptyString
    ∧ Table.spec_table_row preset = Some row
    ∧ row ≠ []
    ∧ Table.chain_matches row (Graph.parse_chain chain) = true.
Proof. intros. by exists chain, row. Qed.

(** C2.  For each of the seven recognised preset identifiers and any two
    paths, the builder returns an invocation of the filtered shape whose
    filter graph is not empty and carries out, stage by stage and in
    order, the row that the table of section 4.2 gives for that preset.
    For every other string it returns the default re-encode command, for
    which the table has no row and which carries no filter graph. *)
Theorem builder_follows_table (preset i o : string) :
  (preset ∈ recognized →
   ∃ chain row,
     get_ffmpeg_command preset i o = filtered_command i chain o
     ∧ chain ≠ EmptyString
     ∧ Table.spec_table_row preset = Some row
     ∧ row ≠ []
     ∧ Table.chain_matches row (Graph.parse_chain chain) = true)
  ∧ (preset ∉ recognized →
     get_ffmpeg_command preset i o = default_command i o
     ∧ Table.spec_table_row preset = None
     ∧ ∀ chain, get_ffmpeg_command preset i o ≠ filtered_command i chain o).
Proof.
  split.
  - unfold recognized. rewrite !elem_of_cons, elem_of_nil.
    intros [->|[->|[->|[->|[->|[->|[->|[]]]]]]]].
    + by eapply (recognized_chain _ _ _
        "lowpass=f=3000,highpass=f=200,equalizer=f=60:width_type=h:width=100:g=10,vibrato=f=0.25:d=0.3,asetrate=44100*0.97,aresample=44100").
    + by eapply (recognized_chain _ _ _
        "lowpass=f=3000,highpass=f=200,equalizer=f=60:width_type=h:width=100:g=10,vibrato=f=0.25:d=0.3,asetrate=44100*0.97,aresample=44100").
    + by eapply (recognized_chain _ _ _
        "lowpass=f=3000,highpass=f=200,equalizer=f=60:width_type=h:width=100:g=10,vibrato=f=0.25:d=0.3,asetrate=44100*0.97,aresample=44100").
    + by eapply (recognized_chain _ _ _
        "atempo=0.85,asetrate=44100*0.95,aresample=44100,reverb=roomsize=0.8:wet=0.45:dry=0.55,equalizer=f=60:width_type=h:width=100:g=12").
    + by eapply (recognized_chain _ _ _
        "atempo=1.25,asetrate=44100*1.1,aresample=44100,highpass=f=100,equalizer=f=8000:width_type=h:width=2000:g=8").
    + by eapply (recognized_chain _ _ _
        "apulsator=hz=0.35:width=0.5,stereotools=mlev=0.5:phase=0.25,extrastereo=m=2.0,reverb=roomsize=0.5:wet=0.3").
    + by eapply (recognized_chain _ _ _
        "atempo=0.90,asetrate=44100*0.93,aresample=44100,reverb=roomsize=0.6:wet=0.35,equalizer=f=60:width_type=h:width=100:g=10").
  - intros H. rewrite (default_when_unrecognized _ _ _ H).
    split; [done|]. split; [by apply no_row_when_unrecognized|].
    intros chain. apply default_has_no_filter_graph.
Qed.

Lemma builder_follows_table_witness :
  (∃ chain row,
     get_ffmpeg_command "nightcore" "in.mp3" "out.m4a"
     = filtered_command "in.mp3" chain "out.m4a"
     ∧ chain ≠ EmptyString
     ∧ Table.spec_table_row "nightcore" = Some row
     ∧ row ≠ []
     ∧ Table.chain_matches row (Graph.parse_chain chain) = true)
  ∧ get_ffmpeg_command "not_a_real_preset" "in.mp3" "out.m4a"
    = default_command "in.mp3" "out.m4a".
Proof.
  split.
  - apply (proj1 (builder_follows_table "nightcore" "in.mp3" "out.m4a")).
    apply (bool_decide_unpack _). vm_compute. exact I.
  - apply (proj2 (builder_follows_table "not_a_real_preset" "in.mp3" "out.m4a")).
    apply (bool_decide_unpack _). vm_compute. exact I.
Defined.

(** C7.  For any two paths the builder returns the very same invocation
    for [lofi], [tiktok_lofi] and [chill_lofi]. *)
Theorem lofi_aliases_interchangeable (i o : string) :
  get_ffmpeg_command "tiktok_lofi" i o = get_ffmpeg_command "lofi" i o
  ∧ get_ffmpeg_command "chill_lofi" i o = get_ffmpeg_command "lofi" i o.
Proof. split; reflexivity. Qed.

(** C9.  Two preset strings outside the seven recognised identifiers give,
    for the same paths, the same invocation: the default command does not
    depend on the unrecognised string. *)
Theorem default_independent_of_preset (p1 p2 i o : string) :
  p1 ∉ recognized → p2 ∉ recognized →
  get_ffmpeg_command p1 i o = get_ffmpeg_command p2 i o.
Proof.
  intros H1 H2. by rewrite !default_when_unrecognized.
Qed.

(** ** The handler *)

Arguments get_ffmpeg_command : simpl never.

Ltac run_handler :=
  unfold attempt, cleanup, try_except, open_wb, read, write, subprocess_run,
    translate_newlines, exists_, unlink, logger, index, raise, mbind, M_bind,
    mret, M_ret;
  simpl.

(** The [finally] block never raises: a failed deletion is logged. *)
Lemma cleanup_returns (env : Env) (p : string) (w : World) :
  ∃ w', cleanup env p w = (Return (), w')
        ∧ (unlink_error env = None → fs w' !! p = None)
        ∧ (is_Some (unlink_error env) → fs w' = fs w).
Proof.
  run_handler.
  destruct (unlink_error env) as [msg|]; simpl.
  - destruct (fault_at_exists env); simpl.
    + eexists; split; [reflexivity|]. split; [discriminate|done].
    + case_bool_decide; simpl;
        (eexists; split; [reflexivity|]; split; [discriminate|done]).
  - assert (Hnone : (if fault_at_exists env then None else None)
                    = (None : option string)) by by destruct (fault_at_exists env).
    rewrite Hnone. simpl. case_bool_decide as Hp; simpl.
    + destruct Hp as [c Hc]. rewrite Hc. eexists; split; [reflexivity|].
      split; [intros _; apply lookup_delete_eq|]. by intros [? ?].
    + eexists; split; [reflexivity|]. split; [|by intros [? ?]].
      intros _. by apply eq_None_not_Some.
Qed.

(** The response is decided by the [try] block. *)
Lemma response_attempt (env : Env) (file : UploadFile) (preset : string) (w : World) :
  response env file preset w
  = (attempt env file preset (input_path_of (uuid4 env))
             (output_path_of (uuid4 env)) w).1.
Proof.
  unfold response, process_audio, try_finally.
  destruct (attempt _ _ _ _ _ w) as [r w1].
  destruct (cleanup_returns env (input_path_of (uuid4 env)) w1) as (w2 & -> & _).
  reflexivity.
Qed.

Section Scenarios.
Variables (env : Env) (file : UploadFile) (preset : string) (w : World).

Lemma response_open_error (msg : string) :
  open_error env = Some msg →
  response env file preset w = Return (error_body msg).
Proof. intros H. rewrite response_attempt. run_handler. by rewrite H. Qed.

Lemma response_read_error (msg : string) :
  open_error env = None → read_result file = ReadError msg →
  response env file preset w = Return (error_body msg).
Proof. intros H1 H2. rewrite response_attempt. run_handler. by rewrite H1, H2. Qed.

Lemma response_read_cancelled :
  open_error env = None → read_result file = ReadCancelled →
  response env file preset w = Raise CancelledError.
Proof. intros H1 H2. rewrite response_attempt. run_handler. by rewrite H1, H2. Qed.

Lemma response_write_error (content msg : string) :
  open_error env = None → read_result file = ReadOk content →
  write_error env = Some msg →
  response env file preset w = Return (error_body msg).
Proof.
  intros H1 H2 H3. rewrite response_attempt. run_handler.
  by rewrite H1, H2, H3.
Qed.

Lemma response_spawn_error (content msg : string) :
  open_error env = None → read_result file = ReadOk content →
  write_error env = None → spawn_error env = Some msg →
  response env file preset w = Return (error_body msg).
Proof.
  intros H1 H2 H3 H4. rewrite response_attempt. run_handler.
  by rewrite H1, H2, H3, H4.
Qed.

Lemma in_time_bool (t : Q) : Qle t (inject_Z 300) → Qle_bool t (inject_Z 300) = true.
Proof. apply Qle_bool_iff. Qed.

Lemma late_bool (t : Q) : Qlt (inject_Z 300) t → Qle_bool t (inject_Z 300) = false.
Proof.
  intros H. destruct (Qle_bool t (inject_Z 300)) eqn:E; [|done].
  apply Qle_bool_iff in E. by apply Qlt_not_le in H.
Qed.

Ltac enter_engine H :=
  destruct H as (content & Hopen & Hread & Hwrite & Hspawn & Hb);
  rewrite response_attempt; run_handler;
  rewrite Hopen, Hread, Hwrite, Hspawn; simpl;
  fold (saved (input_path_of (uuid4 env)) content (fs w));
  rewrite <- Hb.

Ltac enter_exit H Hin :=
  let t := fresh "t" in
  let Ht := fresh "Ht" in
  let Hle := fresh "Hle" in
  destruct Hin as (t & Ht & Hle); enter_engine H;
  rewrite Ht, in_time_bool by done; simpl.

Ltac read_streams Hd :=
  let o := fresh "o" in
  let e := fresh "e" in
  let Ho := fresh "Ho" in
  let He := fresh "He" in
  destruct Hd as [(o & Ho & ->) (e & He & ->)]; rewrite Ho; simpl;
  rewrite He; simpl.

Lemma response_timeout (b : Behaviour) :
  reaches_engine env file preset w b → exceeds_timeout b →
  response env file preset w = Return (error_body "Processing timeout").
Proof.
  intros H Hlate. enter_engine H. unfold exceeds_timeout in Hlate.
  destruct (elapsed b) as [t|]; [|done]. by rewrite late_bool.
Qed.

Lemma response_undecodable (b : Behaviour) (msg : string) :
  reaches_engine env file preset w b → exits_in_time b →
  decode_fault env b msg →
  response env file preset w = Return (error_body msg).
Proof.
  intros H Hin Hd. enter_exit H Hin.
  destruct Hd as [Ho|[(o & t' & Ho & ->) He]].
  - by rewrite Ho.
  - rewrite Ho. simpl. by rewrite He.
Qed.

Lemma response_engine_failure (b : Behaviour) (out err : string) :
  reaches_engine env file preset w b → exits_in_time b →
  decoded env b out err → exit_status b ≠ 0 →
  response env file preset w
  = Return (Json [("status", "error"); ("message", "Processing failed");
                  ("error", err)]).
Proof.
  intros H Hin Hd Hrc. enter_exit H Hin. read_streams Hd.
  apply Z.eqb_neq in Hrc. by rewrite Hrc.
Qed.

Lemma response_stat_fault (b : Behaviour) (out err msg : string) :
  reaches_engine env file preset w b → exits_in_time b →
  decoded env b out err → exit_status b = 0 →
  output_stat_error env = Some msg →
  response env file preset w = Return (error_body msg).
Proof.
  intros H Hin Hd Hrc Hst. enter_exit H Hin. read_streams Hd.
  rewrite Hrc. simpl. by rewrite Hst.
Qed.

Lemma response_output_missing (b : Behaviour) (out err : string) :
  reaches_engine env file preset w b → exits_in_time b →
  decoded env b out err → exit_status b = 0 →
  output_stat_error env = None →
  ¬ on_disk (output_path_of (uuid4 env)) (fs_after b) →
  response env file preset w = Return (error_body "Output file not created").
Proof.
  intros H Hin Hd Hrc Hst Hout. enter_exit H Hin. read_streams Hd.
  rewrite Hrc. simpl. rewrite Hst. simpl. by rewrite bool_decide_eq_false_2.
Qed.

Lemma response_success (b : Behaviour) (out err : string) :
  reaches_engine env file preset w b → exits_in_time b →
  decoded env b out err → exit_status b = 0 →
  output_stat_error env = None →
  on_disk (output_path_of (uuid4 env)) (fs_after b) →
  response env file preset w = Return (processed_file env file preset).
Proof.
  intros H Hin Hd Hrc Hst Hout. enter_exit H Hin. read_streams Hd.
  rewrite Hrc. simpl. rewrite Hst. simpl.
  rewrite bool_decide_eq_true_2 by done. simpl.
  unfold Str.rsplit1, processed_file.
  by destruct (Str.rcut _ _) as [h [t'|]].
Qed.

(** The two streams are read, or one of them cannot be. *)
Lemma decode_cases (b : Behaviour) :
  (∃ msg, decode_fault env b msg) ∨ (∃ out err, decoded env b out err).
Proof.
  unfold decode_fault, decoded, text_of.
  destruct (decode env (output b)) as [o|m] eqn:Ho; [|left; exists m; by left].
  destruct (decode env (diagnostics b)) as [e|m] eqn:He.
  - right. eexists _, _. split; by eexists.
  - left. exists m. right. split; [|done]. eexists _. by eexists.
Qed.

(** The scenarios cover every request. *)
Lemma scenario_cases :
  (∃ msg, open_error env = Some msg)
  ∨ (open_error env = None ∧ ∃ msg, read_result file = ReadError msg)
  ∨ (open_error env = None ∧ read_result file = ReadCancelled)
  ∨ (∃ content msg, open_error env = None ∧ read_result file = ReadOk content
                    ∧ write_error env = Some msg)
  ∨ (∃ content msg, open_error env = None ∧ read_result file = ReadOk content
                    ∧ write_error env = None ∧ spawn_error env = Some msg)
  ∨ (∃ b, reaches_engine env file preset w b
          ∧ (exceeds_timeout b ∨ exits_in_time b)).
Proof.
  destruct (open_error env) as [m|] eqn:Ho; [left; by exists m|].
  destruct (read_result file) as [content|m|] eqn:Hr;
    [|right; left; split; [done|by exists m]|do 2 right; by left].
  destruct (write_error env) as [m|] eqn:Hw;
    [do 3 right; left; by exists content, m|].
  destruct (spawn_error env) as [m|] eqn:Hs;
    [do 4 right; left; by exists content, m|].
  do 5 right. eexists. split; [by exists content|].
  unfold exceeds_timeout, exits_in_time.
  destruct (elapsed _) as [t|]; [|by left].
  destruct (Qlt_le_dec (inject_Z 300) t); [by left|right; eauto].
Qed.

(** What the handler answers: an error body with a message only, the body
    of an engine failure, the processed file, or the cancellation. *)
Lemma response_cases :
  (∃ msg, response env file preset w = Return (error_body msg))
  ∨ (∃ b out err,
       reaches_engine env file preset w b ∧ exits_in_time b
       ∧ decoded env b out err ∧ exit_status b ≠ 0
       ∧ response env file preset w
         = Return (Json [("status", "error"); ("message", "Processing failed");
                         ("error", err)]))
  ∨ (∃ b out err,
       reaches_engine env file preset w b ∧ exits_in_time b
       ∧ decoded env b out err ∧ exit_status b = 0
       ∧ output_stat_error env = None
       ∧ on_disk (output_path_of (uuid4 env)) (fs_after b)
       ∧ response env file preset w = Return (processed_file env file preset))
  ∨ (open_error env = None ∧ read_result file = ReadCancelled
     ∧ response env file preset w = Raise CancelledError).
Proof.
  destruct scenario_cases
    as [(msg & H)|[(Ho & msg & H)|[(Ho & H)|[(c & msg & Ho & Hrd & H)
       |[(c & msg & Ho & Hrd & Hw & H)|(b & Hb & Hcase)]]]]].
  - left. exists msg. by apply response_open_error.
  - left. exists msg. by apply response_read_error.
  - do 3 right. by rewrite response_read_cancelled.
  - left. exists msg. by eapply response_write_error.
  - left. exists msg. by eapply response_spawn_error.
  - destruct Hcase as [Hlate|Hin].
    { left. eexists. by eapply response_timeout. }
    destruct (decode_cases b) as [(msg & Hd)|(out & err & Hd)].
    { left. exists msg. by eapply response_undecodable. }
    destruct (decide (exit_status b = 0)) as [Hz|Hnz].
    2:{ right. left. exists b, out, err.
        by rewrite (response_engine_failure b out err). }
    destruct (output_stat_error env) as [msg|] eqn:Hst.
    { left. exists msg. by eapply response_stat_fault. }
    destruct (decide (on_disk (output_path_of (uuid4 env)) (fs_after b)))
      as [Hout|Hout].
    + do 2 right. left. exists b, out, err.
      by rewrite (response_success b out err).
    + left. eexists. by eapply response_output_missing.
Qed.

End Scenarios.

Lemma mem_append (c : ascii) (h t : string) : Str.mem c (h +:+ String c t) = true.
Proof.
  induction h as [|a h IH]; simpl.
  - by rewrite Ascii.eqb_refl.
  - rewrite IH. apply orb_true_r.
Qed.

Lemma rcut_without_extension (name : string) :
  without_extension name (Str.rcut "."%char name).1.
Proof.
  unfold without_extension. pose proof (rcut_spec "."%char name) as H.
  destruct (Str.rcut "."%char name) as [h [t|]]; simpl.
  - destruct H as [-> Ht]. rewrite mem_append. by exists t.
  - destruct H as [-> Hn]. by rewrite Hn.
Qed.

(** For a name without a slash whose part before the last dot is not made
    of dots only, the cut of [rsplit] is the base name without its
    extension. *)
Lemma rcut_spec_stem (name : string) :
  Str.mem "/"%char name = false →
  all_dots (Str.rcut "."%char name).1 = false →
  (Str.rcut "."%char name).1 = spec_stem name.
Proof.
  intros Hslash Hdots. unfold spec_stem, spec_basename.
  pose proof (rcut_spec "/"%char name) as Hb.
  destruct (Str.rcut "/"%char name) as [h [t|]].
  - destruct Hb as [-> _]. by rewrite mem_append in Hslash.
  - destruct Hb as [-> _]. pose proof (rcut_spec "."%char name) as Hd.
    destruct (Str.rcut "."%char name) as [h' [t'|]]; simpl in *.
    + by rewrite Hdots.
    + by destruct Hd as [-> _].
Qed.




Lemma reaches_example (eng : string → gmap string string → Behaviour) (preset : string) :
  reaches_engine (Examples.env_with eng) Examples.upload preset
    Examples.empty_world
    (eng (get_ffmpeg_command preset (input_path_of "u1") (output_path_of "u1"))
         (saved (input_path_of "u1") "RIFF" ∅)).
Proof. by exists "RIFF". Defined.

Lemma in_time_example (n : Z) (rc : Z) (o d : string) (after : gmap string string) :
  (n <=? 300) = true →
  exits_in_time {| elapsed := Some (inject_Z n); exit_status := rc;
                   output := o; diagnostics := d; fs_after := after |}.
Proof.
  intros H. exists (inject_Z n). split; [reflexivity|].
  rewrite <- Zle_Qle. by apply Z.leb_le.
Defined.

(** ASCII text without carriage returns is read as it is. *)
Lemma decoded_example (eng : string → gmap string string → Behaviour)
    (b : Behaviour) (out err : string) :
  Examples.utf8 (output b) = Text out → replace_cr (replace_crlf out) = out →
  Examples.utf8 (diagnostics b) = Text err → replace_cr (replace_crlf err) = err →
  decoded (Examples.env_with eng) b out err.
Proof. intros Ho Eo He Ee. split; eexists; split; by eauto. Defined.

(** C3, as stated, fails: the engine exits with status zero within the
    timeout and the output file is on disk, but the engine left a byte on
    its standard error that text mode cannot decode; the handler returns
    an error body, not the file. *)
Lemma undecodable_output_is_an_error :
  let b := Examples.engine_garbled
             (get_ffmpeg_command "nightcore" (input_path_of "u1")
                                 (output_path_of "u1"))
             (saved (input_path_of "u1") "RIFF" ∅) in
  reaches_engine (Examples.env_with Examples.engine_garbled) Examples.upload
                 "nightcore" Examples.empty_world b
  ∧ exits_in_time b
  ∧ exit_status b = 0
  ∧ on_disk (output_path_of "u1") (fs_after b)
  ∧ response (Examples.env_with Examples.engine_garbled) Examples.upload
             "nightcore" Examples.empty_world
    = Return (Json [("status", "error");
                    ("message",
                     "'utf-8' codec can't decode byte 0xff in position 0: invalid start byte")]).
Proof.
  split; [apply reaches_example|]. split; [by apply in_time_example|].
  split; [reflexivity|]. split.
  - unfold on_disk. vm_compute. by eexists.
  - vm_compute. reflexivity.
Qed.

(** C3, as amended.  The handler returns the processed file (the output
    path, media type [audio/mp4], the download name) exactly when the
    engine exits within the timeout with status zero, its two captured
    streams are decoded as text, and [output_path.exists()] finds the
    output on disk; it returns no other file.  When the status is zero,
    the streams are decoded and [exists()] reports the output absent, it
    returns the error body with message "Output file not created". *)
Theorem file_iff_exit_zero_and_output
    (env : Env) (file : UploadFile) (preset : string) (w : World) :
  (response env file preset w = Return (processed_file env file preset)
   ↔ ∃ b out err, reaches_engine env file preset w b ∧ exits_in_time b
                  ∧ decoded env b out err
                  ∧ exit_status b = 0
                  ∧ output_stat_error env = None
                  ∧ on_disk (output_path_of (uuid4 env)) (fs_after b))
  ∧ (∀ p m f, response env file preset w = Return (FileResponse p m f) →
              FileResponse p m f = processed_file env file preset)
  ∧ (∀ b out err, reaches_engine env file preset w b → exits_in_time b →
          decoded env b out err →
          exit_status b = 0 →
          output_stat_error env = None →
          ¬ on_disk (output_path_of (uuid4 env)) (fs_after b) →
          response env file preset w
          = Return (Json [("status", "error");
                          ("message", "Output file not created")])).
Proof.
  split; [split|split].
  - intros Hr.
    destruct (response_cases env file preset w)
      as [(msg & H)|[(b & out & err & _ & _ & _ & _ & H)
         |[(b & out & err & Hb & Hin & Hd & Hz & Hst & Hout & _)|(_ & _ & H)]]];
      try (rewrite H in Hr; discriminate Hr).
    by exists b, out, err.
  - intros (b & out & err & Hb & Hin & Hd & Hz & Hst & Hout).
    by apply (response_success env file preset w b out err).
  - intros p m f Hr.
    destruct (response_cases env file preset w)
      as [(msg & H)|[(b & out & err & _ & _ & _ & _ & H)
         |[(b & out & err & _ & _ & _ & _ & _ & _ & H)|(_ & _ & H)]]];
      rewrite H in Hr; try discriminate Hr.
    congruence.
  - intros b out err Hb Hin Hd Hz Hst Hout.
    by apply (response_output_missing env file preset w b out err).
Qed.

Lemma file_iff_exit_zero_and_output_witness :
  response (Examples.env_with Examples.engine_silent) Examples.upload
           "nightcore" Examples.empty_world
  = Return (Json [("status", "error"); ("message", "Output file not created")]).
Proof.
  eapply (proj2 (proj2 (file_iff_exit_zero_and_output
                   (Examples.env_with Examples.engine_silent)
                   Examples.upload "nightcore" Examples.empty_world))).
  - apply reaches_example.
  - by apply in_time_example.
  - by apply (decoded_example _ _ EmptyString EmptyString).
  - reflexivity.
  - reflexivity.
  - unfold on_disk. vm_compute. by intros [? ?].
Defined.

(** C4, as stated, fails: two requests of the same error kind, an upload
    that cannot be written to disk, report different messages, each the
    text of the fault itself. *)
Lemma upload_failure_message_not_fixed :
  response (Examples.env_open_fails "[Errno 13] Permission denied")
           Examples.upload "lofi" Examples.empty_world
  = Return (Json [("status", "error");
                  ("message", "[Errno 13] Permission denied")])
  ∧ response (Examples.env_open_fails "[Errno 28] No space left on device")
             Examples.upload "lofi" Examples.empty_world
    = Return (Json [("status", "error");
                    ("message", "[Errno 28] No space left on device")])
  ∧ response (Examples.env_open_fails "[Errno 13] Permission denied")
             Examples.upload "lofi" Examples.empty_world
    ≠ response (Examples.env_open_fails "[Errno 28] No space left on device")
               Examples.upload "lofi" Examples.empty_world.
Proof. repeat split; vm_compute; [reflexivity..|discriminate]. Qed.

Lemma response_fault (env : Env) (file : UploadFile) (preset : string)
    (w : World) (msg : string) :
  faults_with env file msg →
  response env file preset w = Return (error_body msg).
Proof.
  intros [H|[(Ho & H)|[(c & Ho & Hrd & H)|(c & Ho & Hrd & Hw & H)]]].
  - by apply response_open_error.
  - by apply response_read_error.
  - by eapply response_write_error.
  - by eapply response_spawn_error.
Qed.

Lemma no_error_key (message e : string) :
  ("error", e) ∉ [("status", "error"); ("message", message)].
Proof.
  rewrite !elem_of_cons, elem_of_nil. intros [H|[H|[]]]; discriminate H.
Qed.

(** C4, as amended.  The error body carries an [error] entry only when the
    engine exits with a non-zero status and its captured streams are
    decoded; the entry is the engine's standard error as text mode reads
    it, and the message is then "Processing failed".  A missing output and
    a timeout report fixed messages.  Every other fault reports its own
    text as the message: a fault of an operating-system call (opening,
    reading or writing the upload, starting the child process), a stream
    of the engine that cannot be decoded, and an error of
    [output_path.exists()]. *)
Theorem diagnostics_only_for_engine_failure
    (env : Env) (file : UploadFile) (preset : string) (w : World) :
  (∀ body e,
     response env file preset w = Return (Json body) → ("error", e) ∈ body →
     ∃ b out, reaches_engine env file preset w b ∧ exits_in_time b
              ∧ decoded env b out e ∧ exit_status b ≠ 0)
  ∧ (∀ b out err, reaches_engine env file preset w b → exits_in_time b →
          decoded env b out err → exit_status b ≠ 0 →
          response env file preset w
          = Return (Json [("status", "error");
                          ("message", "Processing failed");
                          ("error", err)]))
  ∧ (∀ b out err, reaches_engine env file preset w b → exits_in_time b →
          decoded env b out err → exit_status b = 0 →
          output_stat_error env = None →
          ¬ on_disk (output_path_of (uuid4 env)) (fs_after b) →
          response env file preset w
          = Return (Json [("status", "error");
                          ("message", "Output file not created")]))
  ∧ (∀ b, reaches_engine env file preset w b → exceeds_timeout b →
          response env file preset w
          = Return (Json [("status", "error");
                          ("message", "Processing timeout")]))
  ∧ (∀ msg, faults_with env file msg →
            response env file preset w
            = Return (Json [("status", "error"); ("message", msg)]))
  ∧ (∀ b msg, reaches_engine env file preset w b → exits_in_time b →
          decode_fault env b msg →
          response env file preset w
          = Return (Json [("status", "error"); ("message", msg)]))
  ∧ (∀ b out err msg, reaches_engine env file preset w b → exits_in_time b →
          decoded env b out err → exit_status b = 0 →
          output_stat_error env = Some msg →
          response env file preset w
          = Return (Json [("status", "error"); ("message", msg)])).
Proof.
  repeat apply conj.
  - intros body e Hr He.
    destruct (response_cases env file preset w)
      as [(msg & H)|[(b & out & err & Hb & Hin & Hd & Hnz & H)
         |[(b & out & err & _ & _ & _ & _ & _ & _ & H)|(_ & _ & H)]]];
      rewrite H in Hr; try discriminate Hr.
    + injection Hr as <-. by apply no_error_key in He.
    + injection Hr as <-. exists b, out.
      revert He. rewrite !elem_of_cons, elem_of_nil.
      intros [H'|[H'|[H'|[]]]]; try discriminate H'. by injection H' as ->.
  - intros b out err Hb Hin Hd Hnz.
    by apply (response_engine_failure env file preset w b out err).
  - intros b out err Hb Hin Hd Hz Hst Hout.
    by apply (response_output_missing env file preset w b out err).
  - intros b Hb Hlate. by apply (response_timeout env file preset w b).
  - intros msg H. by apply response_fault.
  - intros b msg Hb Hin Hd. by apply (response_undecodable env file preset w b).
  - intros b out err msg Hb Hin Hd Hz Hst.
    by apply (response_stat_fault env file preset w b out err).
Qed.

Lemma diagnostics_only_for_engine_failure_witness :
  response (Examples.env_with Examples.engine_rejects) Examples.upload
           "lofi" Examples.empty_world
  = Return (Json [("status", "error");
                  ("message", "Processing failed");
                  ("error", "Invalid data found when processing input")])
  ∧ response (Examples.env_open_fails "[Errno 13] Permission denied")
             Examples.upload "lofi" Examples.empty_world
    = Return (Json [("status", "error");
                    ("message", "[Errno 13] Permission denied")]).
Proof.
  split.
  - eapply (proj1 (proj2 (diagnostics_only_for_engine_failure
                     (Examples.env_with Examples.engine_rejects)
                     Examples.upload "lofi" Examples.empty_world))
              _ EmptyString _ (reaches_example Examples.engine_rejects "lofi")).
    + by apply in_time_example.
    + by apply decoded_example.
    + discriminate.
  - apply (diagnostics_only_for_engine_failure
             (Examples.env_open_fails "[Errno 13] Permission denied")
             Examples.upload "lofi" Examples.empty_world).
    left. reflexivity.
Defined.

(** C6.  When the engine is started and the 300 seconds elapse before it
    exits, the handler returns the error body with status "error" and
    message "Processing timeout". *)
Theorem timeout_reported
    (env : Env) (file : UploadFile) (preset : string) (w : World) (b : Behaviour) :
  reaches_engine env file preset w b → exceeds_timeout b →
  response env file preset w
  = Return (Json [("status", "error"); ("message", "Processing timeout")]).
Proof. apply response_timeout. Qed.

Lemma timeout_reported_witness :
  response (Examples.env_with Examples.engine_hangs) Examples.upload
           "vaporwave" Examples.empty_world
  = Return (Json [("status", "error"); ("message", "Processing timeout")]).
Proof.
  apply (timeout_reported _ _ _ _ _
           (reaches_example Examples.engine_hangs "vaporwave")).
  exact I.
Defined.

(** C8, as stated, fails: for an upload named [my.dir/track] the engine
    succeeds and the download name is [nightcore_my.m4a], while the base
    name of the upload without its extension is [track]. *)
Lemma download_name_cut_at_last_dot :
  response (Examples.env_with Examples.engine_ok) Examples.upload_in_dir
           "nightcore" Examples.empty_world
  = Return (FileResponse "/tmp/audio/u1_output.m4a" "audio/mp4"
                         "nightcore_my.m4a")
  ∧ spec_stem (filename Examples.upload_in_dir) = "track".
Proof. split; vm_compute; reflexivity. Qed.

(** C8, as amended.  On success the handler returns the output file with
    media type [audio/mp4] and the download name [preset], an underscore,
    a stem, and [.m4a], where the stem is the uploaded file's name cut at
    its last dot (the whole name when it has no dot).  For a name without
    a slash whose part before the last dot is not made of dots only, the
    stem is the base name without its extension. *)
Theorem download_name
    (env : Env) (file : UploadFile) (preset : string) (w : World)
    (b : Behaviour) (out err : string) :
  reaches_engine env file preset w b → exits_in_time b →
  decoded env b out err →
  exit_status b = 0 →
  output_stat_error env = None →
  on_disk (output_path_of (uuid4 env)) (fs_after b) →
  ∃ stem,
    response env file preset w
    = Return (FileResponse (output_path_of (uuid4 env)) "audio/mp4"
                           (preset +:+ "_" +:+ stem +:+ ".m4a"))
    ∧ without_extension (filename file) stem
    ∧ (Str.mem "/"%char (filename file) = false → all_dots stem = false →
       stem = spec_stem (filename file)).
Proof.
  intros Hb Hin Hd Hz Hst Hout. exists (Str.rcut "."%char (filename file)).1.
  split; [by apply (response_success env file preset w b out err)|].
  split; [apply rcut_without_extension|apply rcut_spec_stem].
Qed.

Lemma download_name_witness :
  ∃ stem,
    response (Examples.env_with Examples.engine_ok) Examples.upload
             "nightcore" Examples.empty_world
    = Return (FileResponse "/tmp/audio/u1_output.m4a" "audio/mp4"
                           ("nightcore" +:+ "_" +:+ stem +:+ ".m4a"))
    ∧ without_extension "song.final.wav" stem
    ∧ (Str.mem "/"%char "song.final.wav" = false → all_dots stem = false →
       stem = spec_stem "song.final.wav").
Proof.
  apply (download_name _ _ _ _ _ EmptyString EmptyString
           (reaches_example Examples.engine_ok "nightcore")).
  - by apply in_time_example.
  - by apply decoded_example.
  - reflexivity.
  - reflexivity.
  - unfold on_disk. vm_compute. by eexists.
Defined.

(** C10.  When the deletion of the input file raises in the cleanup step,
    the exception is swallowed: the handler gives the response that the
    [try] block had determined, the one it gives when the deletion
    succeeds, and the disk is left as the [try] block left it. *)
Theorem cleanup_failure_keeps_response
    (env : Env) (file : UploadFile) (preset : string) (w : World) (msg : string) :
  unlink_error env = Some msg →
  response env file preset w
  = (attempt env file preset (input_path_of (uuid4 env))
             (output_path_of (uuid4 env)) w).1
  ∧ response env file preset w
    = response (with_unlink_error None env) file preset w
  ∧ fs (world_after env file preset w)
    = fs (attempt env file preset (input_path_of (uuid4 env))
                  (output_path_of (uuid4 env)) w).2.
Proof.
  intros Hu. split; [apply response_attempt|]. split.
  - rewrite !response_attempt. reflexivity.
  - unfold world_after, process_audio, try_finally.
    destruct (attempt _ _ _ _ _ w) as [r w1].
    destruct (cleanup_returns env (input_path_of (uuid4 env)) w1)
      as (w2 & -> & _ & Hsame).
    simpl. apply Hsame. by rewrite Hu.
Qed.

Lemma cleanup_failure_keeps_response_witness :
  unlink_error Examples.env_unlink_fails = Some "[Errno 13] Permission denied"
  ∧ response Examples.env_unlink_fails Examples.upload "nightcore"
             Examples.empty_world
    = response (with_unlink_error None Examples.env_unlink_fails)
               Examples.upload "nightcore" Examples.empty_world.
Proof.
  split; [reflexivity|].
  apply (cleanup_failure_keeps_response Examples.env_unlink_fails
           Examples.upload "nightcore" Examples.empty_world
           "[Errno 13] Permission denied").
  reflexivity.
Defined.

Lemma default_independent_of_preset_witness :
  get_ffmpeg_command "LOFI" "in.mp3" "out.m4a"
  = get_ffmpeg_command "not_a_real_preset" "in.mp3" "out.m4a".
Proof.
  apply default_independent_of_preset;
    apply (bool_decide_unpack _); vm_compute; exact I.
Defined.

(** * Further properties *)

(** ** Strings *)

Lemma append_assoc (a b c : string) : (a +:+ b) +:+ c = a +:+ (b +:+ c).
Proof.
  induction a as [|x a IH]; [done|].
  change (String x ((a +:+ b) +:+ c) = String x (a +:+ (b +:+ c))).
  by rewrite IH.
Qed.

Lemma snoc_inj (s1 s2 : string) (c1 c2 : ascii) :
  s1 +:+ String c1 EmptyString = s2 +:+ String c2 EmptyString →
  s1 = s2 ∧ c1 = c2.
Proof.
  revert s2. induction s1 as [|a s1 IH]; intros [|b s2]; simpl; intros H.
  - by injection H.
  - injection H as _ H. by destruct s2.
  - injection H as _ H. by destruct s1.
  - injection H as -> H. by destruct (IH _ H) as [-> ->].
Qed.

Lemma append_nil_r (a : string) : a +:+ EmptyString = a.
Proof.
  induction a as [|x a IH]; [done|].
  change (String x (a +:+ EmptyString) = String x a). by rewrite IH.
Qed.

Lemma append_cancel_r (s a b : string) : a +:+ s = b +:+ s → a = b.
Proof.
  revert a b. induction s as [|c s IH]; intros a b H.
  - by rewrite !append_nil_r in H.
  - change (String c s) with (String c EmptyString +:+ s) in H.
    rewrite <- (append_assoc a), <- (append_assoc b) in H.
    apply IH in H. by apply snoc_inj in H as [-> _].
Qed.

(** ** The command builder and the listing *)

(** A recognised preset has one filter graph, whatever the paths. *)
Lemma recognized_has_chain (preset : string) :
  preset ∈ recognized →
  ∃ chain, chain ≠ EmptyString
           ∧ ∀ i o, get_ffmpeg_command preset i o = filtered_command i chain o.
Proof.
  unfold recognized. rewrite !elem_of_cons, elem_of_nil.
  intros [->|[->|[->|[->|[->|[->|[->|[]]]]]]]].
  - by exists "lowpass=f=3000,highpass=f=200,equalizer=f=60:width_type=h:width=100:g=10,vibrato=f=0.25:d=0.3,asetrate=44100*0.97,aresample=44100".
  - by exists "lowpass=f=3000,highpass=f=200,equalizer=f=60:width_type=h:width=100:g=10,vibrato=f=0.25:d=0.3,asetrate=44100*0.97,aresample=44100".
  - by exists "lowpass=f=3000,highpass=f=200,equalizer=f=60:width_type=h:width=100:g=10,vibrato=f=0.25:d=0.3,asetrate=44100*0.97,aresample=44100".
  - by exists "atempo=0.85,asetrate=44100*0.95,aresample=44100,reverb=roomsize=0.8:wet=0.45:dry=0.55,equalizer=f=60:width_type=h:width=100:g=12".
  - by exists "atempo=1.25,asetrate=44100*1.1,aresample=44100,highpass=f=100,equalizer=f=8000:width_type=h:width=2000:g=8".
  - by exists "apulsator=hz=0.35:width=0.5,stereotools=mlev=0.5:phase=0.25,extrastereo=m=2.0,reverb=roomsize=0.5:wet=0.3".
  - by exists "atempo=0.90,asetrate=44100*0.93,aresample=44100,reverb=roomsize=0.6:wet=0.35,equalizer=f=60:width_type=h:width=100:g=10".
Qed.

Lemma filtered_is_framed (i chain o : string) :
  filtered_command i chain o
  = command_frame i (" -filter_complex " +:+ dquote +:+ chain +:+ dquote +:+ " ") o.
Proof.
  unfold filtered_command, command_frame.
  do 4 f_equal. rewrite !append_assoc. reflexivity.
Qed.

Lemma listed_ids_eq :
  listed_ids = ["lofi"; "reverb"; "nightcore"; "8d_audio"; "vaporwave"].
Proof. reflexivity. Qed.

(** X1.  Every identifier that the preset listing advertises is one the
    builder recognises: for it the builder emits a command with a
    non-empty filter graph, never the default command. *)
Theorem listed_presets_have_filters (id i o : string) :
  id ∈ listed_ids →
  id ∈ recognized
  ∧ get_ffmpeg_command id i o ≠ default_command i o
  ∧ ∃ chain, chain ≠ EmptyString
             ∧ get_ffmpeg_command id i o = filtered_command i chain o.
Proof.
  intros Hid.
  assert (Hrec : id ∈ recognized).
  { revert Hid. rewrite listed_ids_eq. unfold recognized.
    rewrite !elem_of_cons, !elem_of_nil. tauto. }
  destruct (recognized_has_chain id Hrec) as (chain & Hne & Hcmd).
  split; [done|]. split.
  - rewrite Hcmd. intros H. symmetry in H.
    by apply default_has_no_filter_graph in H.
  - by exists chain.
Qed.

Lemma listed_presets_have_filters_witness :
  "8d_audio" ∈ listed_ids
  ∧ get_ffmpeg_command "8d_audio" "in.mp3" "out.m4a"
    ≠ default_command "in.mp3" "out.m4a".
Proof.
  assert (H : "8d_audio" ∈ listed_ids)
    by (apply (bool_decide_unpack _); vm_compute; exact I).
  split; [exact H|].
  apply (listed_presets_have_filters "8d_audio" "in.mp3" "out.m4a" H).
Defined.

(** X2.  The builder emits a filter graph, rather than the default
    command, for exactly the identifiers that the preset listing
    advertises and the two aliases [tiktok_lofi] and [chill_lofi]; the
    listing advertises neither alias. *)
Theorem filters_for_listing_plus_aliases (preset i o : string) :
  (get_ffmpeg_command preset i o ≠ default_command i o
   ↔ preset ∈ listed_ids ∨ preset = "tiktok_lofi" ∨ preset = "chill_lofi")
  ∧ ("tiktok_lofi" ∉ listed_ids) ∧ ("chill_lofi" ∉ listed_ids).
Proof.
  split; [split|].
  - intros Hne. destruct (decide (preset ∈ recognized)) as [Hrec|Hnot].
    + revert Hrec. rewrite listed_ids_eq. unfold recognized.
      rewrite !elem_of_cons, !elem_of_nil. tauto.
    + by rewrite default_when_unrecognized in Hne.
  - intros Hin.
    assert (Hrec : preset ∈ recognized).
    { revert Hin. rewrite listed_ids_eq. unfold recognized.
      rewrite !elem_of_cons, !elem_of_nil. tauto. }
    destruct (recognized_has_chain preset Hrec) as (chain & _ & Hcmd).
    rewrite Hcmd. intros H. symmetry in H.
    by apply default_has_no_filter_graph in H.
  - rewrite listed_ids_eq, !elem_of_cons, !elem_of_nil.
    split; intros [H|[H|[H|[H|[H|[]]]]]]; discriminate H.
Qed.

Lemma filters_for_listing_plus_aliases_witness :
  get_ffmpeg_command "chill_lofi" "in.mp3" "out.m4a"
  ≠ default_command "in.mp3" "out.m4a"
  ∧ ("chill_lofi" ∉ listed_ids).
Proof.
  split.
  - apply (proj2 (proj1 (filters_for_listing_plus_aliases
                           "chill_lofi" "in.mp3" "out.m4a"))).
    right. right. reflexivity.
  - apply (filters_for_listing_plus_aliases "chill_lofi" "in.mp3" "out.m4a").
Defined.

(** X3.  Whatever the preset string, the command reads the input path,
    quoted, right after [ffmpeg -i], and ends with the AAC 320k options
    followed by the quoted output path; what lies between depends on the
    preset only, not on the paths. *)
Theorem command_always_framed (preset : string) :
  ∃ middle, ∀ i o, get_ffmpeg_command preset i o = command_frame i middle o.
Proof.
  destruct (decide (preset ∈ recognized)) as [Hrec|Hnot].
  - destruct (recognized_has_chain preset Hrec) as (chain & _ & Hcmd).
    eexists. intros i o. rewrite Hcmd. apply filtered_is_framed.
  - exists " ". intros i o. by rewrite default_when_unrecognized.
Qed.

(** X4.  Two presets give the same command only when they are the same
    preset or are both aliases of [lofi]: the five filter graphs differ
    from one another, and from the default command. *)
Theorem distinct_presets_distinct_commands (p1 p2 i o : string) :
  p1 ∈ recognized →
  get_ffmpeg_command p1 i o = get_ffmpeg_command p2 i o →
  p1 = p2 ∨ (p1 ∈ lofi_aliases ∧ p2 ∈ lofi_aliases).
Proof.
  intros H1 Heq.
  destruct (decide (p2 ∈ recognized)) as [H2|H2].
  - revert H1 H2 Heq. unfold recognized, lofi_aliases.
    rewrite !elem_of_cons, !elem_of_nil.
    intros [->|[->|[->|[->|[->|[->|[->|[]]]]]]]]
           [->|[->|[->|[->|[->|[->|[->|[]]]]]]]] Heq;
      try (left; reflexivity);
      try (right; split; tauto);
      exfalso; cbv in Heq; repeat (injection Heq as Heq);
      apply append_cancel_l in Heq; discriminate Heq.
  - destruct (recognized_has_chain p1 H1) as (chain & _ & Hcmd).
    rewrite Hcmd, default_when_unrecognized in Heq by done.
    symmetry in Heq. by apply default_has_no_filter_graph in Heq.
Qed.

Lemma distinct_presets_distinct_commands_witness :
  "chill_lofi" = "lofi"
  ∨ ("chill_lofi" ∈ lofi_aliases ∧ "lofi" ∈ lofi_aliases).
Proof.
  apply (distinct_presets_distinct_commands "chill_lofi" "lofi" "in.mp3" "out.m4a").
  - apply (bool_decide_unpack _); vm_compute; exact I.
  - reflexivity.
Defined.

(** ** The handler: what it returns *)

(** X5.  The handler lets an exception through in one case only: the
    reading of the upload is cancelled.  Every other fault is turned into
    a returned body. *)
Theorem handler_raises_only_on_cancel
    (env : Env) (file : UploadFile) (preset : string) (w : World) (e : PyExn) :
  response env file preset w = Raise e
  ↔ e = CancelledError ∧ open_error env = None
    ∧ read_result file = ReadCancelled.
Proof.
  split.
  - intros Hr.
    destruct (response_cases env file preset w)
      as [(msg & H)|[(b & out & err & _ & _ & _ & _ & H)
         |[(b & out & err & _ & _ & _ & _ & _ & _ & H)|(Ho & Hrd & H)]]];
      rewrite H in Hr; try discriminate Hr.
    by injection Hr as <-.
  - intros (-> & Ho & Hrd). by apply response_read_cancelled.
Qed.

Lemma handler_raises_only_on_cancel_witness :
  response (Examples.env_with Examples.engine_ok)
           {| filename := "a.wav"; read_result := ReadCancelled |}
           "lofi" Examples.empty_world
  = Raise CancelledError.
Proof.
  apply (proj2 (handler_raises_only_on_cancel
                  (Examples.env_with Examples.engine_ok)
                  {| filename := "a.wav"; read_result := ReadCancelled |}
                  "lofi" Examples.empty_world CancelledError)).
  repeat split; reflexivity.
Defined.

(** X6.  Every JSON body the handler returns is an error body: its
    [status] is [error] and it has a [message]. *)
Theorem json_bodies_are_errors
    (env : Env) (file : UploadFile) (preset : string) (w : World)
    (body : list (string * string)) :
  response env file preset w = Return (Json body) →
  dict_get "status" body = Some "error"
  ∧ is_Some (dict_get "message" body).
Proof.
  intros Hr.
  destruct (response_cases env file preset w)
    as [(msg & H)|[(b & out & err & _ & _ & _ & _ & H)
       |[(b & out & err & _ & _ & _ & _ & _ & _ & H)|(_ & _ & H)]]];
    rewrite H in Hr; try discriminate Hr;
    injection Hr as <-; by split; [|eexists].
Qed.

Lemma json_bodies_are_errors_witness :
  dict_get "status"
    [("status", "error"); ("message", "Processing timeout")] = Some "error"
  ∧ is_Some (dict_get "message"
               [("status", "error"); ("message", "Processing timeout")]).
Proof.
  apply (json_bodies_are_errors (Examples.env_with Examples.engine_hangs)
           Examples.upload "vaporwave" Examples.empty_world).
  vm_compute. reflexivity.
Defined.

(** ** The handler: the files it uses *)

Lemma input_not_output (a b : string) : input_path_of a ≠ output_path_of b.
Proof.
  unfold input_path_of, output_path_of, path_join. intros H.
  do 2 apply append_cancel_l in H.
  change "_input.mp3" with ("_input.mp" +:+ String "3"%char EmptyString) in H.
  change "_output.m4a" with ("_output.m4" +:+ String "a"%char EmptyString) in H.
  rewrite <- (append_assoc a), <- (append_assoc b) in H.
  apply snoc_inj in H as [_ H]. discriminate H.
Qed.

(** X7.  The files of two requests do not collide: the input path and the
    output path determine the request's identifier, and no input path is
    ever an output path, of the same request or of another. *)
Theorem request_paths_do_not_collide (a b : string) :
  (input_path_of a = input_path_of b → a = b)
  ∧ (output_path_of a = output_path_of b → a = b)
  ∧ input_path_of a ≠ output_path_of b.
Proof.
  split; [|split].
  - unfold input_path_of, path_join. intros H.
    do 2 apply append_cancel_l in H. by apply append_cancel_r in H.
  - unfold output_path_of, path_join. intros H.
    do 2 apply append_cancel_l in H. by apply append_cancel_r in H.
  - apply input_not_output.
Qed.

Lemma request_paths_do_not_collide_witness :
  "u1" = "u1".
Proof.
  apply (proj1 (request_paths_do_not_collide "u1" "u1")). reflexivity.
Defined.

(** The disk after the [finally] block. *)
Lemma cleanup_fs (env : Env) (p : string) (w : World) :
  fs (cleanup env p w).2
  = match unlink_error env with
    | None => delete p (fs w)
    | Some _ => fs w
    end.
Proof.
  run_handler.
  destruct (unlink_error env) as [msg|]; simpl.
  - destruct (fault_at_exists env); simpl; [done|]. by case_bool_decide.
  - assert (Hnone : (if fault_at_exists env then None else None)
                    = (None : option string)) by by destruct (fault_at_exists env).
    rewrite Hnone. simpl. case_bool_decide as Hp; simpl.
    + destruct Hp as [c Hc]. by rewrite Hc.
    + apply eq_None_not_Some in Hp. by rewrite delete_id.
Qed.

Lemma world_after_cleanup (env : Env) (file : UploadFile) (preset : string) (w : World) :
  world_after env file preset w
  = (cleanup env (input_path_of (uuid4 env))
       (attempt env file preset (input_path_of (uuid4 env))
                (output_path_of (uuid4 env)) w).2).2.
Proof.
  unfold world_after, process_audio, try_finally.
  destruct (attempt _ _ _ _ _ w) as [r w1]. simpl.
  by destruct (cleanup env _ w1) as [[[]|e] w2].
Qed.

Lemma world_after_fs (env : Env) (file : UploadFile) (preset : string) (w : World) :
  fs (world_after env file preset w)
  = fs (cleanup env (input_path_of (uuid4 env))
          (attempt env file preset (input_path_of (uuid4 env))
                   (output_path_of (uuid4 env)) w).2).2.
Proof. by rewrite world_after_cleanup. Qed.

(** The disk after the [try] block, when the engine was started. *)
Lemma attempt_fs_engine (env : Env) (file : UploadFile) (preset : string)
    (w : World) (b : Behaviour) :
  reaches_engine env file preset w b →
  fs (attempt env file preset (input_path_of (uuid4 env))
              (output_path_of (uuid4 env)) w).2
  = fs_after b.
Proof.
  intros (content & Hopen & Hread & Hwrite & Hspawn & Hb).
  run_handler. rewrite Hopen, Hread, Hwrite, Hspawn. simpl.
  fold (saved (input_path_of (uuid4 env)) content (fs w)). rewrite <- Hb.
  destruct (elapsed b) as [t|]; [|done].
  destruct (Qle_bool t (inject_Z 300)); [|done]. simpl.
  destruct (decode env (output b)); [|done]. simpl.
  destruct (decode env (diagnostics b)); [|done]. simpl.
  destruct (exit_status b =? 0); [|done]. simpl.
  destruct (output_stat_error env); [done|]. simpl.
  case_bool_decide; [|done]. simpl.
  unfold Str.rsplit1. by destruct (Str.rcut _ _) as [h [t'|]].
Qed.

(** The disk after the [try] block, when the engine was not started: only
    the input path may have changed. *)
Lemma attempt_fs_no_engine (env : Env) (file : UploadFile) (preset : string)
    (w : World) (p : string) :
  (∀ b, ¬ reaches_engine env file preset w b) →
  p ≠ input_path_of (uuid4 env) →
  fs (attempt env file preset (input_path_of (uuid4 env))
              (output_path_of (uuid4 env)) w).2 !! p
  = fs w !! p.
Proof.
  intros Hno Hp. run_handler.
  destruct (open_error env) as [m|] eqn:Ho; [done|].
  destruct (read_result file) as [content|m|] eqn:Hr; simpl;
    [|by rewrite lookup_insert_ne..].
  destruct (write_error env) as [m|] eqn:Hw; simpl;
    [by rewrite lookup_insert_ne|].
  destruct (spawn_error env) as [m|] eqn:Hs; simpl;
    [by rewrite !lookup_insert_ne|].
  exfalso. eapply Hno. by exists content.
Qed.

(** X8.  When the handler returns a file response, the response names the
    request's output path with media type [audio/mp4], and that file is
    on disk when the handler is over: the cleanup removes the input file
    only, also when the deletion fails. *)
Theorem returned_file_is_on_disk
    (env : Env) (file : UploadFile) (preset : string) (w : World)
    (p m f : string) :
  response env file preset w = Return (FileResponse p m f) →
  p = output_path_of (uuid4 env) ∧ m = "audio/mp4"
  ∧ on_disk p (fs (world_after env file preset w)).
Proof.
  intros Hr.
  destruct (response_cases env file preset w)
    as [(msg & H)|[(b & out & err & _ & _ & _ & _ & H)
       |[(b & out & err & Hb & _ & _ & _ & _ & Hout & H)|(_ & _ & H)]]];
    rewrite H in Hr; try discriminate Hr.
  injection Hr as <- <- _.
  split; [done|]. split; [done|].
  unfold on_disk.
  rewrite world_after_fs, cleanup_fs, (attempt_fs_engine _ _ _ _ b Hb).
  destruct (unlink_error env); [done|].
  rewrite lookup_delete_ne; [done|]. apply input_not_output.
Qed.

Lemma returned_file_is_on_disk_witness :
  "/tmp/audio/u1_output.m4a" = output_path_of "u1"
  ∧ "audio/mp4" = "audio/mp4"
  ∧ on_disk "/tmp/audio/u1_output.m4a"
      (fs (world_after Examples.env_unlink_fails Examples.upload "nightcore"
                       Examples.empty_world)).
Proof.
  apply (returned_file_is_on_disk Examples.env_unlink_fails Examples.upload
           "nightcore" Examples.empty_world _ _ "nightcore_song.final.m4a").
  vm_compute. reflexivity.
Defined.

(** X9.  Once the engine has been started, the disk the handler leaves is
    the disk the engine left, less the input file when its deletion
    succeeds: the handler removes no output, whole or partial, whatever
    the outcome of the engine. *)
Theorem disk_after_engine
    (env : Env) (file : UploadFile) (preset : string) (w : World) (b : Behaviour) :
  reaches_engine env file preset w b →
  fs (world_after env file preset w)
  = match unlink_error env with
    | None => delete (input_path_of (uuid4 env)) (fs_after b)
    | Some _ => fs_after b
    end.
Proof.
  intros Hb. by rewrite world_after_fs, cleanup_fs, (attempt_fs_engine _ _ _ _ b Hb).
Qed.

Lemma disk_after_engine_witness :
  fs (world_after (Examples.env_with Examples.engine_rejects) Examples.upload
                  "lofi" Examples.empty_world)
  = delete (input_path_of "u1") (saved (input_path_of "u1") "RIFF" ∅).
Proof.
  apply (disk_after_engine (Examples.env_with Examples.engine_rejects)
           Examples.upload "lofi" Examples.empty_world _
           (reaches_example Examples.engine_rejects "lofi")).
Defined.

(** X10.  When the request fails before the engine is started, the handler
    leaves every file other than the request's input file as it found it. *)
Theorem disk_untouched_without_engine
    (env : Env) (file : UploadFile) (preset : string) (w : World) (p : string) :
  (∀ b, ¬ reaches_engine env file preset w b) →
  p ≠ input_path_of (uuid4 env) →
  fs (world_after env file preset w) !! p = fs w !! p.
Proof.
  intros Hno Hp. rewrite world_after_fs, cleanup_fs.
  destruct (unlink_error env); [|rewrite lookup_delete_ne by done];
    by apply attempt_fs_no_engine.
Qed.

Lemma not_reached_example (msg : string) (b : Behaviour) :
  ¬ reaches_engine (Examples.env_open_fails msg) Examples.upload "lofi"
      busy_world b.
Proof. intros (c & H & _). discriminate H. Defined.

Lemma disk_untouched_without_engine_witness :
  fs (world_after (Examples.env_open_fails "[Errno 13] Permission denied")
        Examples.upload "lofi" busy_world)
    !! "/tmp/audio/other_output.m4a"
  = fs busy_world !! "/tmp/audio/other_output.m4a".
Proof.
  apply (disk_untouched_without_engine
           (Examples.env_open_fails "[Errno 13] Permission denied")
           Examples.upload "lofi" busy_world).
  - apply not_reached_example.
  - discriminate.
Defined.

(** ** The handler and the engine *)

(** X11.  The handler consults the engine at one point only: the command
    that the builder gives for the preset and the request's two paths, on
    the disk where the input path holds the uploaded payload.  Two engines
    that agree there give the same response, the same disk and the same
    log. *)
Theorem engine_consulted_at_one_point
    (env : Env) (file : UploadFile) (preset : string) (w : World)
    (eng1 eng2 : string → gmap string string → Behaviour) :
  (∀ content, read_result file = ReadOk content →
     eng1 (get_ffmpeg_command preset (input_path_of (uuid4 env))
                              (output_path_of (uuid4 env)))
          (saved (input_path_of (uuid4 env)) content (fs w))
     = eng2 (get_ffmpeg_command preset (input_path_of (uuid4 env))
                                (output_path_of (uuid4 env)))
            (saved (input_path_of (uuid4 env)) content (fs w))) →
  process_audio (with_engine eng1 env) file preset w
  = process_audio (with_engine eng2 env) file preset w.
Proof.
  intros H. unfold process_audio, try_finally. simpl.
  assert (Ha : attempt (with_engine eng1 env) file preset
                 (input_path_of (uuid4 env)) (output_path_of (uuid4 env)) w
               = attempt (with_engine eng2 env) file preset
                   (input_path_of (uuid4 env)) (output_path_of (uuid4 env)) w).
  { run_handler.
    destruct (open_error env); [done|].
    destruct (read_result file) as [content| |] eqn:Hr; [|done..]. simpl.
    destruct (write_error env); [done|].
    destruct (spawn_error env); [done|]. simpl.
    fold (saved (input_path_of (uuid4 env)) content (fs w)).
    by rewrite (H content). }
  rewrite Ha. reflexivity.
Qed.

Lemma engine_consulted_at_one_point_witness :
  process_audio (with_engine Examples.engine_silent (Examples.env_with Examples.engine_ok))
                Examples.upload "lofi" Examples.empty_world
  = process_audio (with_engine (λ _ _, Examples.engine_silent EmptyString
                                         (saved (input_path_of "u1") "RIFF" ∅))
                               (Examples.env_with Examples.engine_ok))
                  Examples.upload "lofi" Examples.empty_world.
Proof.
  apply (engine_consulted_at_one_point (Examples.env_with Examples.engine_ok)
           Examples.upload "lofi" Examples.empty_world).
  intros content H. injection H as <-. reflexivity.
Defined.

(** X12.  A preset string the builder does not recognise is no error for
    the handler: the engine is run on the default command, and when it
    exits in time with status zero, its streams are decoded and
    [output_path.exists()] finds the output, the handler returns the file,
    under a download name that starts with the unrecognised string as it
    was sent. *)
Theorem unrecognized_preset_passes_through
    (env : Env) (file : UploadFile) (preset : string) (w : World)
    (content : string) (b : Behaviour) (out err : string) :
  preset ∉ recognized →
  open_error env = None → read_result file = ReadOk content →
  write_error env = None → spawn_error env = None →
  b = engine env
        (default_command (input_path_of (uuid4 env)) (output_path_of (uuid4 env)))
        (saved (input_path_of (uuid4 env)) content (fs w)) →
  exits_in_time b → decoded env b out err → exit_status b = 0 →
  output_stat_error env = None →
  on_disk (output_path_of (uuid4 env)) (fs_after b) →
  response env file preset w
  = Return (FileResponse (output_path_of (uuid4 env)) "audio/mp4"
              (preset +:+ "_" +:+ (Str.rcut "."%char (filename file)).1
               +:+ ".m4a")).
Proof.
  intros Hp Ho Hr Hw Hs Hb Hin Hd Hz Hst Hout.
  apply (response_success env file preset w b out err); try done.
  exists content. by rewrite default_when_unrecognized.
Qed.

Lemma unrecognized_preset_passes_through_witness :
  response (Examples.env_with Examples.engine_ok) Examples.upload
           "not_a_real_preset" Examples.empty_world
  = Return (FileResponse "/tmp/audio/u1_output.m4a" "audio/mp4"
                         "not_a_real_preset_song.final.m4a").
Proof.
  apply (unrecognized_preset_passes_through
           (Examples.env_with Examples.engine_ok) Examples.upload
           "not_a_real_preset" Examples.empty_world "RIFF"
           (Examples.engine_ok EmptyString
              (saved (input_path_of "u1") "RIFF" ∅))
           EmptyString EmptyString).
  - apply (bool_decide_unpack _); vm_compute; exact I.
  - reflexivity.
  - reflexivity.
  - reflexivity.
  - reflexivity.
  - reflexivity.
  - by apply in_time_example.
  - by apply decoded_example.
  - reflexivity.
  - reflexivity.
  - unfold on_disk. vm_compute. by eexists.
Defined.

(** ** The handler: what it logs *)

Lemma logged_app (l : Level) (a b : list (Level * string)) :
  logged l (a ++ b) = (logged l a + logged l b)%nat.
Proof. unfold logged. by rewrite filter_app, length_app. Qed.

Lemma logged_one (l l' : Level) (m : string) :
  logged l [(l', m)] = if decide (l' = l) then 1%nat else 0%nat.
Proof. unfold logged. cbn. by case_decide. Qed.

Lemma logged_nil (l : Level) : logged l [] = 0%nat.
Proof. reflexivity. Qed.

Arguments logged : simpl never.

Ltac count_log :=
  cbn; rewrite ?logged_app, ?logged_one, ?logged_nil; repeat case_decide;
  try congruence;
  cbn; lia.

Ltac walk_attempt :=
  run_handler;
  destruct (open_error _); simpl; [count_log|];
  destruct (read_result _); simpl; [|count_log..];
  destruct (write_error _); simpl; [count_log|];
  destruct (spawn_error _); simpl; [count_log|];
  destruct (elapsed _) as [?t|]; [|count_log];
  destruct (Qle_bool _ (inject_Z 300)); [|count_log]; simpl;
  destruct (decode _ (output _)); [|count_log]; simpl;
  destruct (decode _ (diagnostics _)); [|count_log]; simpl;
  destruct (exit_status _ =? 0); [|count_log]; simpl;
  destruct (output_stat_error _); simpl; [count_log|];
  case_bool_decide; [|count_log]; simpl;
  unfold Str.rsplit1; destruct (Str.rcut _ _) as [?h [?t|]]; count_log.

Lemma attempt_errors_logged (env : Env) (file : UploadFile) (preset : string)
    (w : World) (ip op : string) :
  logged ERROR (log (attempt env file preset ip op w).2)
  = (logged ERROR (log w) + is_error_body (attempt env file preset ip op w).1)%nat.
Proof. walk_attempt. Qed.

Lemma attempt_warnings_logged (env : Env) (file : UploadFile) (preset : string)
    (w : World) (ip op : string) :
  logged WARNING (log (attempt env file preset ip op w).2)
  = logged WARNING (log w).
Proof. walk_attempt. Qed.

Lemma cleanup_log (env : Env) (p : string) (w : World) :
  log (cleanup env p w).2
  = log w ++ match unlink_error env with
             | Some msg =>
                 if fault_at_exists env || bool_decide (on_disk p (fs w))
                 then [(WARNING, "⚠️ Cleanup error: " +:+ msg)] else []
             | None => []
             end.
Proof.
  run_handler. unfold on_disk.
  destruct (unlink_error env) as [msg|]; simpl.
  - destruct (fault_at_exists env); simpl; [done|].
    case_bool_decide; simpl; [done|]. by rewrite app_nil_r.
  - assert (Hnone : (if fault_at_exists env then None else None)
                    = (None : option string)) by by destruct (fault_at_exists env).
    rewrite Hnone. simpl. case_bool_decide as Hp; simpl.
    + destruct Hp as [c Hc]. rewrite Hc. simpl. by rewrite app_nil_r.
    + by rewrite app_nil_r.
Qed.

(** X13.  The handler logs exactly one line at level ERROR when it returns
    an error body, and none when it returns the file or is cancelled; a
    failed cleanup adds no ERROR line. *)
Theorem one_error_line_per_error_body
    (env : Env) (file : UploadFile) (preset : string) (w : World) :
  logged ERROR (log (world_after env file preset w))
  = (logged ERROR (log w) + is_error_body (response env file preset w))%nat.
Proof.
  rewrite world_after_cleanup, response_attempt, cleanup_log, logged_app.
  rewrite attempt_errors_logged.
  destruct (unlink_error env); [destruct (_ || _)|]; count_log.
Qed.

(** X14.  The handler logs a line at level WARNING in one case only, and
    then exactly one: its cleanup step raises, either because
    [input_path.exists()] raises, or because the deletion of the input
    file fails, which leaves the file on disk at the end of the request. *)
Theorem warning_only_for_failed_cleanup
    (env : Env) (file : UploadFile) (preset : string) (w : World) :
  logged WARNING (log (world_after env file preset w))
  = (logged WARNING (log w)
     + match unlink_error env with
       | Some _ =>
           if fault_at_exists env
              || bool_decide (on_disk (input_path_of (uuid4 env))
                                      (fs (world_after env file preset w)))
           then 1 else 0
       | None => 0
       end)%nat.
Proof.
  rewrite world_after_fs, cleanup_fs, world_after_cleanup, cleanup_log.
  rewrite logged_app, attempt_warnings_logged.
  destruct (unlink_error env); [destruct (_ || _)|]; count_log.
Qed.

(** With the temporary directory unsearchable nothing is opened, no
    deletion is attempted and no input file is on disk, and the cleanup
    logs its warning all the same. *)
Example warning_when_exists_raises :
  logged WARNING (log (world_after Examples.env_unsearchable Examples.upload
                                   "lofi" Examples.empty_world)) = 1%nat
  ∧ fs (world_after Examples.env_unsearchable Examples.upload "lofi"
                    Examples.empty_world) !! input_path_of "u1" = None.
Proof. split; vm_compute; reflexivity. Qed.
